(** * NFSv3 server protocol engine of EdenFS: eden/fs/nfs/Nfsd3.cpp

    A shallow embedding of the [Nfsd3ServerProcessor] class: the error map,
    the attribute conversions, the per-procedure handlers, the handler table
    and the dispatch router, followed by the properties the specification
    states about them.

    Conventions of the embedding.
    - Fixed-width integers are [Z]; every narrowing or wrapping the C++
      performs is written out ([to_narrow32], [to_unsigned64], [mul64]).
    - A [folly::Try<T>] is [Try T]; a [folly::Future<T>] is the [Try T] it
      completes with: a dispatcher call is performed at the point where the
      source initiates it, so the order of dispatcher calls in a run is the
      order in which the source issues them.
    - A handler is a computation in the monad [M]: it threads the state of
      the dispatcher, may end in a C++ exception that leaves the handler, and
      emits the ordered list of its effects (what it serialized into the
      reply sink, which dispatcher operations it invoked and what they
      answered, what it logged).
    - [XDCHECK]/[XDCHECK_LE] are debug-build assertions and compile to
      nothing in a release build; the embedding is of the release build. *)

From Stdlib Require Import ZArith String Ascii List Lia Bool.
From Stdlib.Strings Require Import Byte.
From stdpp Require Import base list.
Import ListNotations.
Local Open Scope string_scope.
Local Open Scope Z_scope.

(** ** Exceptions and [folly::Try] *)

(** [std::error_category]: the two categories the standard library provides
    for errno-like codes, and any other one. *)
Inductive error_category : Type :=
| generic_category
| system_category
| other_category (name : string).

(** [std::error_code], the payload of a [std::system_error]. *)
Record error_code : Type := mk_error_code {
  category : error_category;
  value : Z
}.

(** What a [folly::exception_wrapper] can hold, as far as this file
    distinguishes it: a [std::system_error], a [folly::FutureTimeout], or an
    exception of any other type (identified by its [what()] text). *)
Inductive exception_wrapper : Type :=
| std_system_error (code : error_code)
| FutureTimeout
| other_exception (what : string).

Inductive Try (A : Type) : Type :=
| Value (a : A)
| Exception (e : exception_wrapper).
Arguments Value {A} a.
Arguments Exception {A} e.

(** ** Platform constants (Linux <errno.h>, <sys/stat.h>, <limits.h>) *)

Definition EPERM : Z := 1.
Definition ENOENT : Z := 2.
Definition EIO : Z := 5.
Definition ENXIO : Z := 6.
Definition EAGAIN : Z := 11.
Definition ENOMEM : Z := 12.
Definition EACCES : Z := 13.
Definition EEXIST : Z := 17.
Definition EXDEV : Z := 18.
Definition ENODEV : Z := 19.
Definition ENOTDIR : Z := 20.
Definition EISDIR : Z := 21.
Definition EINVAL : Z := 22.
Definition ENFILE : Z := 23.
Definition ETXTBSY : Z := 26.
Definition EFBIG : Z := 27.
Definition EROFS : Z := 30.
Definition EMLINK : Z := 31.
Definition ENAMETOOLONG : Z := 36.
Definition ENOTEMPTY : Z := 39.
Definition ENOTSUP : Z := 95.
Definition ETIMEDOUT : Z := 110.
Definition ESTALE : Z := 116.
Definition EDQUOT : Z := 122.

Definition NAME_MAX : Z := 255.

Definition S_IFMT : Z := 0xF000.   (* 0170000 *)
Definition S_IFSOCK : Z := 0xC000. (* 0140000 *)
Definition S_IFLNK : Z := 0xA000.  (* 0120000 *)
Definition S_IFREG : Z := 0x8000.  (* 0100000 *)
Definition S_IFBLK : Z := 0x6000.  (* 0060000 *)
Definition S_IFDIR : Z := 0x4000.  (* 0040000 *)
Definition S_IFCHR : Z := 0x2000.  (* 0020000 *)
Definition S_IFIFO : Z := 0x1000.  (* 0010000 *)
Definition S_IXUSR : Z := 0x40.    (* 0100 *)

Definition S_ISREG (mode : Z) : bool := Z.land mode S_IFMT =? S_IFREG.
Definition S_ISDIR (mode : Z) : bool := Z.land mode S_IFMT =? S_IFDIR.
Definition S_ISBLK (mode : Z) : bool := Z.land mode S_IFMT =? S_IFBLK.
Definition S_ISCHR (mode : Z) : bool := Z.land mode S_IFMT =? S_IFCHR.
Definition S_ISLNK (mode : Z) : bool := Z.land mode S_IFMT =? S_IFLNK.
Definition S_ISSOCK (mode : Z) : bool := Z.land mode S_IFMT =? S_IFSOCK.
Definition S_ISFIFO (mode : Z) : bool := Z.land mode S_IFMT =? S_IFIFO.

(** ** Integer conversions *)

(** [folly::to_unsigned] on a 64-bit signed value. *)
Definition to_unsigned64 (x : Z) : Z := x mod 2 ^ 64.

(** [folly::to_narrow] into a [uint32_t]. *)
Definition to_narrow32 (x : Z) : Z := x mod 2 ^ 32.

(** Multiplication of two 64-bit unsigned operands. *)
Definition mul64 (x y : Z) : Z := (x * y) mod 2 ^ 64.

(** ** POSIX structures *)

Record timespec : Type := mk_timespec {
  tv_sec : Z;
  tv_nsec : Z
}.

Record stat : Type := mk_stat {
  st_mode : Z;
  st_nlink : Z;
  st_uid : Z;
  st_gid : Z;
  st_size : Z;
  st_blocks : Z;
  st_dev : Z;
  st_ino : Z;
  st_atim : timespec;
  st_mtim : timespec;
  st_ctim : timespec
}.

Record statfs : Type := mk_statfs {
  f_bsize : Z;
  f_blocks : Z;
  f_bfree : Z;
  f_bavail : Z;
  f_files : Z;
  f_ffree : Z
}.

(** ** NFSv3 wire types (RFC 1813; declared in NfsdRpc.h) *)

Definition InodeNumber : Type := Z.

Record nfs_fh3 : Type := mk_nfs_fh3 { ino : InodeNumber }.

Inductive nfsstat3 : Type :=
| NFS3_OK
| NFS3ERR_PERM
| NFS3ERR_NOENT
| NFS3ERR_IO
| NFS3ERR_NXIO
| NFS3ERR_ACCES
| NFS3ERR_EXIST
| NFS3ERR_XDEV
| NFS3ERR_NODEV
| NFS3ERR_NOTDIR
| NFS3ERR_ISDIR
| NFS3ERR_INVAL
| NFS3ERR_FBIG
| NFS3ERR_NOSPC
| NFS3ERR_ROFS
| NFS3ERR_MLINK
| NFS3ERR_NAMETOOLONG
| NFS3ERR_NOTEMPTY
| NFS3ERR_DQUOT
| NFS3ERR_STALE
| NFS3ERR_REMOTE
| NFS3ERR_BADHANDLE
| NFS3ERR_NOT_SYNC
| NFS3ERR_BAD_COOKIE
| NFS3ERR_NOTSUPP
| NFS3ERR_TOOSMALL
| NFS3ERR_SERVERFAULT
| NFS3ERR_BADTYPE
| NFS3ERR_JUKEBOX.

Inductive accept_stat : Type :=
| SUCCESS
| PROG_UNAVAIL
| PROG_MISMATCH
| PROC_UNAVAIL
| GARBAGE_ARGS
| SYSTEM_ERR.

Record mismatch_info : Type := mk_mismatch_info { low : Z; high : Z }.

Inductive ftype3 : Type :=
| NF3REG | NF3DIR | NF3BLK | NF3CHR | NF3LNK | NF3SOCK | NF3FIFO.

Record nfstime3 : Type := mk_nfstime3 { seconds : Z; nseconds : Z }.

Record specdata3 : Type := mk_specdata3 { specdata1 : Z; specdata2 : Z }.

Record fattr3 : Type := mk_fattr3 {
  type : ftype3;
  mode : Z;
  nlink : Z;
  uid : Z;
  gid : Z;
  size : Z;
  used : Z;
  rdev : specdata3;
  fsid : Z;
  fileid : Z;
  atime : nfstime3;
  mtime : nfstime3;
  ctime : nfstime3
}.

Record wcc_attr : Type := mk_wcc_attr {
  wcc_size : Z;
  wcc_mtime : nfstime3;
  wcc_ctime : nfstime3
}.

(** The optional variants: a default-constructed one ([post_op_attr{}]) is
    the absent alternative. *)
Definition post_op_attr : Type := option fattr3.
Definition pre_op_attr : Type := option wcc_attr.
Definition post_op_fh3 : Type := option nfs_fh3.

Record wcc_data : Type := mk_wcc_data {
  before : pre_op_attr;
  after : post_op_attr
}.

(** [wcc_data{}] *)
Definition wcc_data_default : wcc_data := {| before := None; after := None |}.

Inductive stable_how : Type := UNSTABLE | DATA_SYNC | FILE_SYNC.

Definition writeverf3 : Type := Z.

Inductive createmode3 : Type := UNCHECKED | GUARDED | EXCLUSIVE.

Definition createverf3 : Type := Z.

Inductive set_time : Type :=
| DONT_CHANGE
| SET_TO_SERVER_TIME
| SET_TO_CLIENT_TIME (t : nfstime3).

(** [sattr3]; each [set_*3] member is an optional variant whose [tag] tells
    whether a value is carried: [attr.mode.tag ? get<uint32_t>(attr.mode.v)
    : d] reads [from_option id d (sattr_mode attr)]. *)
Record sattr3 : Type := mk_sattr3 {
  sattr_mode : option Z;
  sattr_uid : option Z;
  sattr_gid : option Z;
  sattr_size : option Z;
  sattr_atime : set_time;
  sattr_mtime : set_time
}.

(** [createhow3]: the discriminant and the [std::variant] it selects are
    stored side by side, as in the source ([how.tag], [how.v]). *)
Record createhow3 : Type := mk_createhow3 {
  tag : createmode3;
  v : sattr3 + createverf3
}.

Record diropargs3 : Type := mk_diropargs3 { dir : nfs_fh3; name : string }.

(** *** Procedure arguments *)

Record GETATTR3args : Type := mk_GETATTR3args { getattr_object : nfs_fh3 }.
Record LOOKUP3args : Type := mk_LOOKUP3args { what : diropargs3 }.
Record ACCESS3args : Type := mk_ACCESS3args {
  access_object : nfs_fh3;
  access_mask : Z
}.
Record READLINK3args : Type := mk_READLINK3args { symlink_fh : nfs_fh3 }.
Record WRITE3args : Type := mk_WRITE3args {
  file : nfs_fh3;
  offset : Z;
  count : Z;
  stable : stable_how;
  data : list Byte.byte
}.
Record CREATE3args : Type := mk_CREATE3args {
  create_where : diropargs3;
  how : createhow3
}.
Record MKDIR3args : Type := mk_MKDIR3args {
  mkdir_where : diropargs3;
  attributes : sattr3
}.
Record LINK3args : Type := mk_LINK3args {
  link_file : nfs_fh3;
  link_to : diropargs3
}.
Record FSSTAT3args : Type := mk_FSSTAT3args { fsroot : nfs_fh3 }.
Record FSINFO3args : Type := mk_FSINFO3args { fsinfo_fsroot : nfs_fh3 }.
Record PATHCONF3args : Type := mk_PATHCONF3args { pathconf_object : nfs_fh3 }.

(** *** Procedure results

    Every result is an [XdrVariant] holding the [nfsstat3] discriminant and
    one of the two bodies, written [{status, resok}] or [{status, resfail}]
    in the source. *)

Record XdrVariant (Ok Fail : Type) : Type := mk_XdrVariant {
  status : nfsstat3;
  body : Ok + Fail
}.
Arguments mk_XdrVariant {Ok Fail} status body.
Arguments status {Ok Fail} _.
Arguments body {Ok Fail} _.

Record GETATTR3resok : Type := mk_GETATTR3resok { obj_attributes : fattr3 }.
(** the failure body is [std::monostate] *)
Definition GETATTR3res : Type := XdrVariant GETATTR3resok unit.

Record LOOKUP3resok : Type := mk_LOOKUP3resok {
  lookup_object : nfs_fh3;
  lookup_obj_attributes : post_op_attr;
  lookup_dir_attributes : post_op_attr
}.
Record LOOKUP3resfail : Type := mk_LOOKUP3resfail {
  lookupfail_dir_attributes : post_op_attr
}.
Definition LOOKUP3res : Type := XdrVariant LOOKUP3resok LOOKUP3resfail.

Record ACCESS3resok : Type := mk_ACCESS3resok {
  access_obj_attributes : post_op_attr;
  effective_access : Z
}.
Record ACCESS3resfail : Type := mk_ACCESS3resfail {
  accessfail_obj_attributes : post_op_attr
}.
Definition ACCESS3res : Type := XdrVariant ACCESS3resok ACCESS3resfail.

Record READLINK3resok : Type := mk_READLINK3resok {
  symlink_attributes : post_op_attr;
  readlink_data : string
}.
Record READLINK3resfail : Type := mk_READLINK3resfail {
  readlinkfail_symlink_attributes : post_op_attr
}.
Definition READLINK3res : Type := XdrVariant READLINK3resok READLINK3resfail.

Record WRITE3resok : Type := mk_WRITE3resok {
  file_wcc : wcc_data;
  write_count : Z;
  committed : stable_how;
  verf : writeverf3
}.
Record WRITE3resfail : Type := mk_WRITE3resfail { writefail_file_wcc : wcc_data }.
Definition WRITE3res : Type := XdrVariant WRITE3resok WRITE3resfail.

Record CREATE3resok : Type := mk_CREATE3resok {
  create_obj : post_op_fh3;
  create_obj_attributes : post_op_attr;
  create_dir_wcc : wcc_data
}.
Record CREATE3resfail : Type := mk_CREATE3resfail { createfail_dir_wcc : wcc_data }.
Definition CREATE3res : Type := XdrVariant CREATE3resok CREATE3resfail.

Record MKDIR3resok : Type := mk_MKDIR3resok {
  mkdir_obj : post_op_fh3;
  mkdir_obj_attributes : post_op_attr;
  mkdir_dir_wcc : wcc_data
}.
Record MKDIR3resfail : Type := mk_MKDIR3resfail { mkdirfail_dir_wcc : wcc_data }.
Definition MKDIR3res : Type := XdrVariant MKDIR3resok MKDIR3resfail.

Record LINK3resok : Type := mk_LINK3resok {
  link_file_attributes : post_op_attr;
  link_linkdir_wcc : wcc_data
}.
Record LINK3resfail : Type := mk_LINK3resfail {
  linkfail_file_attributes : post_op_attr;
  linkfail_linkdir_wcc : wcc_data
}.
Definition LINK3res : Type := XdrVariant LINK3resok LINK3resfail.

Record FSSTAT3resok : Type := mk_FSSTAT3resok {
  fsstat_obj_attributes : post_op_attr;
  tbytes : Z;
  fbytes : Z;
  abytes : Z;
  tfiles : Z;
  ffiles : Z;
  afiles : Z;
  invarsec : Z
}.
Record FSSTAT3resfail : Type := mk_FSSTAT3resfail {
  fsstatfail_obj_attributes : post_op_attr
}.
Definition FSSTAT3res : Type := XdrVariant FSSTAT3resok FSSTAT3resfail.

Record FSINFO3resok : Type := mk_FSINFO3resok {
  fsinfo_obj_attributes : post_op_attr;
  rtmax : Z;
  rtpref : Z;
  rtmult : Z;
  wtmax : Z;
  wtpref : Z;
  wtmult : Z;
  dtpref : Z;
  maxfilesize : Z;
  time_delta : nfstime3;
  properties : Z
}.
Record FSINFO3resfail : Type := mk_FSINFO3resfail {
  fsinfofail_obj_attributes : post_op_attr
}.
Definition FSINFO3res : Type := XdrVariant FSINFO3resok FSINFO3resfail.

Record PATHCONF3resok : Type := mk_PATHCONF3resok {
  pathconf_obj_attributes : post_op_attr;
  linkmax : Z;
  name_max : Z;
  no_trunc : bool;
  chown_restricted : bool;
  case_insensitive : bool;
  case_preserving : bool
}.
Record PATHCONF3resfail : Type := mk_PATHCONF3resfail {
  pathconffail_obj_attributes : post_op_attr
}.
Definition PATHCONF3res : Type := XdrVariant PATHCONF3resok PATHCONF3resfail.

(** What can be appended to the reply sink: the RPC accept header written by
    [serializeReply], a [mismatch_info], or a procedure result. *)
Inductive XdrItem : Type :=
| Xdr_reply (stat : accept_stat) (xid : Z)
| Xdr_mismatch_info (m : mismatch_info)
| Xdr_GETATTR3res (r : GETATTR3res)
| Xdr_LOOKUP3res (r : LOOKUP3res)
| Xdr_ACCESS3res (r : ACCESS3res)
| Xdr_READLINK3res (r : READLINK3res)
| Xdr_WRITE3res (r : WRITE3res)
| Xdr_CREATE3res (r : CREATE3res)
| Xdr_MKDIR3res (r : MKDIR3res)
| Xdr_LINK3res (r : LINK3res)
| Xdr_FSSTAT3res (r : FSSTAT3res)
| Xdr_FSINFO3res (r : FSINFO3res)
| Xdr_PATHCONF3res (r : PATHCONF3res).

(** ** The dispatcher interface (NfsDispatcher.h) *)

(** A [PathComponent] wraps the name it was built from. *)
Record PathComponent : Type := mk_PathComponent { stringPiece : string }.

(** The request context handed to every dispatcher operation; the handlers
    use one static null context each, told apart by its cause detail. *)
Record ObjectFetchContext : Type := mk_ObjectFetchContext {
  causeDetail : string
}.

Definition getNullContextWithCauseDetail (detail : string) : ObjectFetchContext :=
  {| causeDetail := detail |}.

Record WriteRes : Type := mk_WriteRes {
  written : Z;
  preStat : option stat;
  postStat : option stat
}.

Record CreateRes : Type := mk_CreateRes {
  create_ino : InodeNumber;
  create_stat : stat;
  create_preDirStat : option stat;
  create_postDirStat : option stat
}.

Record MkdirRes : Type := mk_MkdirRes {
  mkdir_ino : InodeNumber;
  mkdir_stat : stat;
  mkdir_preDirStat : option stat;
  mkdir_postDirStat : option stat
}.

(** The operations of [NfsDispatcher] the handlers consume. The dispatcher
    is an external collaborator: each operation maps its arguments and the
    current state [D] of the filesystem to the value or exception its
    future completes with, and the next state. *)
Record NfsDispatcher (D : Type) : Type := mk_NfsDispatcher {
  disp_getattr : InodeNumber -> ObjectFetchContext -> D -> Try stat * D;
  disp_getParent : InodeNumber -> ObjectFetchContext -> D -> Try InodeNumber * D;
  disp_lookup :
    InodeNumber -> PathComponent -> ObjectFetchContext -> D ->
    Try (InodeNumber * stat) * D;
  disp_readlink : InodeNumber -> ObjectFetchContext -> D -> Try string * D;
  disp_write :
    InodeNumber -> list Byte.byte -> Z -> ObjectFetchContext -> D ->
    Try WriteRes * D;
  disp_create :
    InodeNumber -> PathComponent -> Z -> ObjectFetchContext -> D ->
    Try CreateRes * D;
  disp_mkdir :
    InodeNumber -> PathComponent -> Z -> ObjectFetchContext -> D ->
    Try MkdirRes * D;
  disp_statfs : InodeNumber -> ObjectFetchContext -> D -> Try statfs * D
}.
Arguments disp_getattr {D} _ _ _ _.
Arguments disp_getParent {D} _ _ _ _.
Arguments disp_lookup {D} _ _ _ _ _.
Arguments disp_readlink {D} _ _ _ _.
Arguments disp_write {D} _ _ _ _ _ _.
Arguments disp_create {D} _ _ _ _ _ _.
Arguments disp_mkdir {D} _ _ _ _ _ _.
Arguments disp_statfs {D} _ _ _ _.

(** ** Effects of a handler *)

(** One invocation of a dispatcher operation: its arguments and what its
    future completed with. *)
Inductive DispatcherCall : Type :=
| CallGetattr (i : InodeNumber) (ctx : ObjectFetchContext) (r : Try stat)
| CallGetParent (i : InodeNumber) (ctx : ObjectFetchContext) (r : Try InodeNumber)
| CallLookup (i : InodeNumber) (n : PathComponent) (ctx : ObjectFetchContext)
    (r : Try (InodeNumber * stat))
| CallReadlink (i : InodeNumber) (ctx : ObjectFetchContext) (r : Try string)
| CallWrite (i : InodeNumber) (buf : list Byte.byte) (off : Z)
    (ctx : ObjectFetchContext) (r : Try WriteRes)
| CallCreate (i : InodeNumber) (n : PathComponent) (m : Z)
    (ctx : ObjectFetchContext) (r : Try CreateRes)
| CallMkdir (i : InodeNumber) (n : PathComponent) (m : Z)
    (ctx : ObjectFetchContext) (r : Try MkdirRes)
| CallStatfs (i : InodeNumber) (ctx : ObjectFetchContext) (r : Try statfs).

(** The log statements of the file. *)
Inductive LogRecord : Type :=
| XLOG_ERR (msg : string) (n : Z)
| XLOG_WARN (msg : string)
| FB_LOGF_DBG7 (handlerName : string).

Inductive Event : Type :=
| Serialized (x : XdrItem)
| Dispatched (c : DispatcherCall)
| Logged (l : LogRecord).

(** What the handler appended to its reply sink, in order. *)
Fixpoint serialized (evs : list Event) : list XdrItem :=
  match evs with
  | [] => []
  | Serialized x :: rest => x :: serialized rest
  | _ :: rest => serialized rest
  end.

(** The dispatcher operations the handler invoked, in order. *)
Fixpoint dispatched (evs : list Event) : list DispatcherCall :=
  match evs with
  | [] => []
  | Dispatched c :: rest => c :: dispatched rest
  | _ :: rest => dispatched rest
  end.

Definition isLookupCall (c : DispatcherCall) : bool :=
  match c with CallLookup _ _ _ _ => true | _ => false end.

(** ** The handler monad: dispatcher state, C++ exceptions, effect trace *)

Record Run (D A : Type) : Type := mk_Run {
  outcome : Try A;
  dstate : D;
  effects : list Event
}.
Arguments mk_Run {D A} outcome dstate effects.
Arguments outcome {D A} _.
Arguments dstate {D A} _.
Arguments effects {D A} _.

Definition M (D A : Type) : Type := D -> Run D A.

Definition M_ret {D A : Type} (a : A) : M D A :=
  fun d => mk_Run (Value a) d [].

(** The run [r] with the effects [evs] placed before its own. *)
Definition prepend {D A : Type} (evs : list Event) (r : Run D A) : Run D A :=
  match r with
  | mk_Run o d evs' => mk_Run o d (evs ++ evs')
  end.

Definition M_bind {D A B : Type} (k : A -> M D B) (m : M D A) : M D B :=
  fun d =>
    match m d with
    | mk_Run (Value a) d' evs => prepend evs (k a d')
    | mk_Run (Exception e) d' evs => mk_Run (Exception e) d' evs
    end.

#[global] Instance M_MRet (D : Type) : MRet (M D) := @M_ret D.
#[global] Instance M_MBind (D : Type) : MBind (M D) := @M_bind D.

(** [throw e] *)
Definition throw {D A : Type} (e : exception_wrapper) : M D A :=
  fun d => mk_Run (Exception e) d [].

(** A fallible pure step (a constructor or accessor that may throw). *)
Definition liftTry {D A : Type} (t : Try A) : M D A :=
  fun d => mk_Run t d [].

Definition emit {D : Type} (ev : Event) : M D unit :=
  fun d => mk_Run (Value tt) d [ev].

(** [XdrTrait<T>::serialize(ser, x)] on the handler's reply sink. *)
Definition serialize {D : Type} (x : XdrItem) : M D unit :=
  emit (Serialized x).

(** [serializeReply(ser, status, xid)]: the accept header of the reply. *)
Definition serializeReply {D : Type} (st : accept_stat) (xid : Z) : M D unit :=
  serialize (Xdr_reply st xid).

Definition log {D : Type} (l : LogRecord) : M D unit :=
  emit (Logged l).

(** Invoking a dispatcher operation: the state advances, the call and its
    answer are recorded, and the answer is the completed future. *)
Definition invoke {D A : Type} (op : D -> Try A * D)
    (record : Try A -> DispatcherCall) : M D (Try A) :=
  fun d =>
    let '(r, d') := op d in
    mk_Run (Value r) d' [Dispatched (record r)].

(** [folly::makeFutureWith(f)]: an exception thrown while [f] runs becomes
    the result of the future instead of leaving the caller. *)
Definition makeFutureWith {D A : Type} (f : M D (Try A)) : M D (Try A) :=
  fun d =>
    match f d with
    | mk_Run (Value t) d' evs => mk_Run (Value t) d' evs
    | mk_Run (Exception e) d' evs => mk_Run (Value (Exception e)) d' evs
    end.

(** [fut.thenValue(f)] for a continuation that returns a plain value. *)
Definition thenValue {D A B : Type} (fut : Try A) (f : A -> B) : M D (Try B) :=
  match fut with
  | Value a => M_ret (Value (f a))
  | Exception e => M_ret (Exception e)
  end.

(** [fut.thenValue(f)] for a continuation that returns a future. *)
Definition thenValueFut {D A B : Type} (fut : Try A) (f : A -> M D (Try B))
    : M D (Try B) :=
  match fut with
  | Value a => makeFutureWith (f a)
  | Exception e => M_ret (Exception e)
  end.

(** ** XDR decoding of the arguments (XdrTrait, declared in Xdr.h)

    Decoding reads from the request cursor and throws when the bytes do not
    hold a value of the type. The codec is an external collaborator: the
    development is parametric in the cursor type and in the decoders. *)
Class XdrTrait (Cursor A : Type) : Type := {
  deserialize : Cursor -> Try A
}.

(** [std::get<T>(v)] on the two alternatives of [createhow3::v]. *)
Definition std_get_sattr3 (x : sattr3 + createverf3) : Try sattr3 :=
  match x with
  | inl a => Value a
  | inr _ => Exception (other_exception "std::bad_variant_access")
  end.

(** [folly::IOBufQueue::split(n)] on a queue holding [buf]: the first [n]
    bytes, or [std::underflow_error] when fewer are present. *)
Definition IOBufQueue_split (buf : list Byte.byte) (n : Z) : Try (list Byte.byte) :=
  if n <=? Z.of_nat (length buf)
  then Value (firstn (Z.to_nat n) buf)
  else Exception (other_exception "std::underflow_error").

(** ** Declarations the file takes from other headers *)

(** eden/fs/utils/SystemError.h: whether a [std::system_error] carries an
    errno value. *)
Class SystemError : Type := {
  isErrnoError : error_code -> bool
}.

(** eden/fs/utils/PathFuncs.h: the [PathComponent] constructor, which may
    reject the name it is given by throwing. *)
Class PathFuncs : Type := {
  mkPathComponent : string -> Try PathComponent
}.

(** NfsdRpc.h: the mode bits of [fattr3.mode] and the [FSF3_*] property
    flags of FSINFO. *)
Class NfsdRpcConstants : Type := {
  kReadOwnerBit : Z;
  kWriteOwnerBit : Z;
  kExecOwnerBit : Z;
  kReadGroupBit : Z;
  FSF3_SYMLINK : Z;
  FSF3_HOMOGENEOUS : Z;
  FSF3_CANSETTIME : Z
}.

(** Modelled from the spec: [kNfsdProgNumber] is declared in NfsdRpc.h;
    section 6 gives NFSD_PROGRAM_NUMBER = 100003. *)
Definition kNfsdProgNumber : Z := 100003.

(** Modelled from the spec: [kNfsd3ProgVersion] is declared in NfsdRpc.h;
    section 6 gives NFSD3_VERSION = 3. *)
Definition kNfsd3ProgVersion : Z := 3.

(** Modelled from the spec: the enumeration [nfsv3Procs] is declared in
    NfsdRpc.h; section 6 numbers the procedures 0 = NULL ... 21 = COMMIT as
    RFC 1813 does. *)
Inductive nfsv3Procs : Type :=
| proc_null | proc_getattr | proc_setattr | proc_lookup | proc_access
| proc_readlink | proc_read | proc_write | proc_create | proc_mkdir
| proc_symlink | proc_mknod | proc_remove | proc_rmdir | proc_rename
| proc_link | proc_readdir | proc_readdirplus | proc_fsstat | proc_fsinfo
| proc_pathconf | proc_commit.

(** Modelled from the spec: [folly::to_underlying] on [nfsv3Procs], with the
    numbering of section 6. *)
Definition to_underlying (p : nfsv3Procs) : nat :=
  match p with
  | proc_null => 0 | proc_getattr => 1 | proc_setattr => 2
  | proc_lookup => 3 | proc_access => 4 | proc_readlink => 5
  | proc_read => 6 | proc_write => 7 | proc_create => 8
  | proc_mkdir => 9 | proc_symlink => 10 | proc_mknod => 11
  | proc_remove => 12 | proc_rmdir => 13 | proc_rename => 14
  | proc_link => 15 | proc_readdir => 16 | proc_readdirplus => 17
  | proc_fsstat => 18 | proc_fsinfo => 19 | proc_pathconf => 20
  | proc_commit => 21
  end%nat.

(** ** Error map *)

Section ErrorMap.
Context `{SystemError}.

(** Convert a exception to the appropriate NFS error value. *)
Definition exceptionToNfsError (ex : exception_wrapper) : nfsstat3 :=
  match ex with
  | std_system_error err =>
      if negb (isErrnoError err) then NFS3ERR_SERVERFAULT
      else
        let c := value err in
        if c =? EPERM then NFS3ERR_PERM
        else if c =? ENOENT then NFS3ERR_NOENT
        else if (c =? EIO) || (c =? ETXTBSY) then NFS3ERR_IO
        else if c =? ENXIO then NFS3ERR_NXIO
        else if c =? EACCES then NFS3ERR_ACCES
        else if c =? EEXIST then NFS3ERR_EXIST
        else if c =? EXDEV then NFS3ERR_XDEV
        else if c =? ENODEV then NFS3ERR_NODEV
        else if c =? ENOTDIR then NFS3ERR_NOTDIR
        else if c =? EISDIR then NFS3ERR_ISDIR
        else if c =? EINVAL then NFS3ERR_INVAL
        else if c =? EFBIG then NFS3ERR_FBIG
        else if c =? EROFS then NFS3ERR_ROFS
        else if c =? EMLINK then NFS3ERR_MLINK
        else if c =? ENAMETOOLONG then NFS3ERR_NAMETOOLONG
        else if c =? ENOTEMPTY then NFS3ERR_NOTEMPTY
        else if c =? EDQUOT then NFS3ERR_DQUOT
        else if c =? ESTALE then NFS3ERR_STALE
        else if (c =? ETIMEDOUT) || (c =? EAGAIN) || (c =? ENOMEM)
        then NFS3ERR_JUKEBOX
        else if c =? ENOTSUP then NFS3ERR_NOTSUPP
        else if c =? ENFILE then NFS3ERR_SERVERFAULT
        else NFS3ERR_SERVERFAULT
  | FutureTimeout => NFS3ERR_JUKEBOX
  | other_exception _ => NFS3ERR_SERVERFAULT
  end.

(** Test if the exception was raised due to a EEXIST condition. *)
Definition isEexist (ex : exception_wrapper) : bool :=
  match ex with
  | std_system_error err => isErrnoError err && (value err =? EEXIST)
  | _ => false
  end.
End ErrorMap.

(** The table of section 4.1 of the specification, row by row, as the
    specification writes it: the errno values of each row and the status the
    row assigns. It is compared with [exceptionToNfsError] below. *)
Definition spec_error_table : list (list Z * nfsstat3) :=
  [ ([EPERM], NFS3ERR_PERM);
    ([ENOENT], NFS3ERR_NOENT);
    ([EIO; ETXTBSY], NFS3ERR_IO);
    ([ENXIO], NFS3ERR_NXIO);
    ([EACCES], NFS3ERR_ACCES);
    ([EEXIST], NFS3ERR_EXIST);
    ([EXDEV], NFS3ERR_XDEV);
    ([ENODEV], NFS3ERR_NODEV);
    ([ENOTDIR], NFS3ERR_NOTDIR);
    ([EISDIR], NFS3ERR_ISDIR);
    ([EINVAL], NFS3ERR_INVAL);
    ([EFBIG], NFS3ERR_FBIG);
    ([EROFS], NFS3ERR_ROFS);
    ([EMLINK], NFS3ERR_MLINK);
    ([ENAMETOOLONG], NFS3ERR_NAMETOOLONG);
    ([ENOTEMPTY], NFS3ERR_NOTEMPTY);
    ([EDQUOT], NFS3ERR_DQUOT);
    ([ESTALE], NFS3ERR_STALE);
    ([ETIMEDOUT; EAGAIN; ENOMEM], NFS3ERR_JUKEBOX);
    ([ENOTSUP], NFS3ERR_NOTSUPP);
    ([ENFILE], NFS3ERR_SERVERFAULT) ].

(** The status the table of section 4.1 assigns to an errno: that of the
    row listing it, and [NFS3ERR_SERVERFAULT] for "any other errno". *)
Fixpoint spec_table_lookup (rows : list (list Z * nfsstat3)) (errno : Z) : nfsstat3 :=
  match rows with
  | [] => NFS3ERR_SERVERFAULT
  | (errnos, st) :: rest =>
      if existsb (Z.eqb errno) errnos then st else spec_table_lookup rest errno
  end.

(** ** Attribute conversion *)

Section AttrConvert.
Context `{NfsdRpcConstants}.

(** Convert the POSIX mode to NFS file type. *)
Definition modeToFtype3 (mode : Z) : ftype3 :=
  if S_ISREG mode then NF3REG
  else if S_ISDIR mode then NF3DIR
  else if S_ISBLK mode then NF3BLK
  else if S_ISCHR mode then NF3CHR
  else if S_ISLNK mode then NF3LNK
  else if S_ISSOCK mode then NF3SOCK
  else NF3FIFO.

(** Convert the POSIX mode to NFS mode. *)
Definition modeToNfsMode (mode : Z) : Z :=
  Z.lor (Z.lor (Z.lor kReadOwnerBit kWriteOwnerBit) kReadGroupBit)
    (if negb (Z.land mode S_IXUSR =? 0) then kExecOwnerBit else 0).

(** Convert a POSIX timespec to an NFS time. *)
Definition timespecToNfsTime (time : timespec) : nfstime3 :=
  {| seconds := to_narrow32 (to_unsigned64 (tv_sec time));
     nseconds := to_narrow32 (to_unsigned64 (tv_nsec time)) |}.

Definition statToFattr3 (st : stat) : fattr3 :=
  {| type := modeToFtype3 (st_mode st);
     mode := modeToNfsMode (st_mode st);
     nlink := to_narrow32 (st_nlink st);
     uid := st_uid st;
     gid := st_gid st;
     size := to_unsigned64 (st_size st);
     used := mul64 (to_unsigned64 (st_blocks st)) 512;
     rdev := {| specdata1 := 0; specdata2 := 0 |};
     fsid := to_unsigned64 (st_dev st);
     fileid := st_ino st;
     atime := timespecToNfsTime (st_atim st);
     mtime := timespecToNfsTime (st_mtim st);
     ctime := timespecToNfsTime (st_ctim st) |}.

Definition statToPostOpAttr (st : Try stat) : post_op_attr :=
  match st with
  | Exception _ => None
  | Value s => Some (statToFattr3 s)
  end.

Definition statToPreOpAttr (st : stat) : pre_op_attr :=
  Some {| wcc_size := to_unsigned64 (st_size st);
          wcc_mtime := timespecToNfsTime (st_mtim st);
          wcc_ctime := timespecToNfsTime (st_ctim st) |}.
End AttrConvert.

Definition getEffectiveAccessRights (st : stat) (desiredAccess : Z) : Z :=
  desiredAccess.

(** Generate a unique per-EdenFS instance write cookie. *)
Definition makeWriteVerf : writeverf3 := 0.

(** ** The server processor *)

Module Nfsd3ServerProcessor.
Section Processor.
Context {D Cursor : Type}.
Context `{SystemError} `{PathFuncs} `{NfsdRpcConstants}.
Context `{XdrTrait Cursor GETATTR3args} `{XdrTrait Cursor LOOKUP3args}
        `{XdrTrait Cursor ACCESS3args} `{XdrTrait Cursor READLINK3args}
        `{XdrTrait Cursor WRITE3args} `{XdrTrait Cursor CREATE3args}
        `{XdrTrait Cursor MKDIR3args} `{XdrTrait Cursor LINK3args}
        `{XdrTrait Cursor FSSTAT3args} `{XdrTrait Cursor FSINFO3args}
        `{XdrTrait Cursor PATHCONF3args}.

(** The members of the class. *)
Variable dispatcher_ : NfsDispatcher D.
Variable caseSensitive_ : bool.

(** [dispatcher_->op(...)] *)
Definition dispatcher_getattr (i : InodeNumber) (ctx : ObjectFetchContext)
    : M D (Try stat) :=
  invoke (disp_getattr dispatcher_ i ctx) (CallGetattr i ctx).
Definition dispatcher_getParent (i : InodeNumber) (ctx : ObjectFetchContext)
    : M D (Try InodeNumber) :=
  invoke (disp_getParent dispatcher_ i ctx) (CallGetParent i ctx).
Definition dispatcher_lookup (i : InodeNumber) (n : PathComponent)
    (ctx : ObjectFetchContext) : M D (Try (InodeNumber * stat)) :=
  invoke (disp_lookup dispatcher_ i n ctx) (CallLookup i n ctx).
Definition dispatcher_readlink (i : InodeNumber) (ctx : ObjectFetchContext)
    : M D (Try string) :=
  invoke (disp_readlink dispatcher_ i ctx) (CallReadlink i ctx).
Definition dispatcher_write (i : InodeNumber) (buf : list Byte.byte) (off : Z)
    (ctx : ObjectFetchContext) : M D (Try WriteRes) :=
  invoke (disp_write dispatcher_ i buf off ctx) (CallWrite i buf off ctx).
Definition dispatcher_create (i : InodeNumber) (n : PathComponent) (m : Z)
    (ctx : ObjectFetchContext) : M D (Try CreateRes) :=
  invoke (disp_create dispatcher_ i n m ctx) (CallCreate i n m ctx).
Definition dispatcher_mkdir (i : InodeNumber) (n : PathComponent) (m : Z)
    (ctx : ObjectFetchContext) : M D (Try MkdirRes) :=
  invoke (disp_mkdir dispatcher_ i n m ctx) (CallMkdir i n m ctx).
Definition dispatcher_statfs (i : InodeNumber) (ctx : ObjectFetchContext)
    : M D (Try statfs) :=
  invoke (disp_statfs dispatcher_ i ctx) (CallStatfs i ctx).

Definition null (deser : Cursor) (xid : Z) : M D unit :=
  serializeReply SUCCESS xid.

Definition getattr (deser : Cursor) (xid : Z) : M D unit :=
  serializeReply SUCCESS xid;;
  args ← liftTry (deserialize (A := GETATTR3args) deser);
  let context := getNullContextWithCauseDetail "getattr" in
  try_ ← dispatcher_getattr (ino (getattr_object args)) context;
  match try_ with
  | Exception e =>
      serialize (Xdr_GETATTR3res
        {| status := exceptionToNfsError e; body := inr tt |})
  | Value st =>
      serialize (Xdr_GETATTR3res
        {| status := NFS3_OK;
           body := inl {| obj_attributes := statToFattr3 st |} |})
  end.

Definition setattr (deser : Cursor) (xid : Z) : M D unit :=
  serializeReply PROC_UNAVAIL xid.

Definition lookup (deser : Cursor) (xid : Z) : M D unit :=
  serializeReply SUCCESS xid;;
  args ← liftTry (deserialize (A := LOOKUP3args) deser);
  let context := getNullContextWithCauseDetail "lookup" in
  dirAttrFut ← dispatcher_getattr (ino (dir (what args))) context;
  if NAME_MAX <? Z.of_nat (String.length (name (what args))) then
    (* The filename is too long, let's try to get the attributes of the
       directory and fail. *)
    match dirAttrFut with
    | Exception _ =>
        serialize (Xdr_LOOKUP3res
          {| status := NFS3ERR_NAMETOOLONG;
             body := inr {| lookupfail_dir_attributes := None |} |})
    | Value st =>
        serialize (Xdr_LOOKUP3res
          {| status := NFS3ERR_NAMETOOLONG;
             body := inr {| lookupfail_dir_attributes :=
                              Some (statToFattr3 st) |} |})
    end
  else
    lookupTry ← makeFutureWith (
      if String.eqb (name (what args)) "." then
        fut ← dispatcher_getattr (ino (dir (what args))) context;
        thenValue fut (fun st => (ino (dir (what args)), st))
      else if String.eqb (name (what args)) ".." then
        fut ← dispatcher_getParent (ino (dir (what args))) context;
        thenValueFut fut (fun i =>
          fut' ← dispatcher_getattr i context;
          thenValue fut' (fun st => (i, st)))
      else
        component ← liftTry (mkPathComponent (name (what args)));
        dispatcher_lookup (ino (dir (what args))) component context);
    let dirStat := dirAttrFut in
    match lookupTry with
    | Exception e =>
        serialize (Xdr_LOOKUP3res
          {| status := exceptionToNfsError e;
             body := inr {| lookupfail_dir_attributes :=
                              statToPostOpAttr dirStat |} |})
    | Value (i, st) =>
        serialize (Xdr_LOOKUP3res
          {| status := NFS3_OK;
             body := inl {| lookup_object := {| ino := i |};
                            lookup_obj_attributes := Some (statToFattr3 st);
                            lookup_dir_attributes :=
                              statToPostOpAttr dirStat |} |})
    end.

Definition access (deser : Cursor) (xid : Z) : M D unit :=
  serializeReply SUCCESS xid;;
  args ← liftTry (deserialize (A := ACCESS3args) deser);
  let context := getNullContextWithCauseDetail "access" in
  let desiredAccess := access_mask args in
  try_ ← dispatcher_getattr (ino (access_object args)) context;
  match try_ with
  | Exception e =>
      serialize (Xdr_ACCESS3res
        {| status := exceptionToNfsError e;
           body := inr {| accessfail_obj_attributes := None |} |})
  | Value st =>
      serialize (Xdr_ACCESS3res
        {| status := NFS3_OK;
           body := inl {| access_obj_attributes := Some (statToFattr3 st);
                          effective_access := getEffectiveAccessRights st desiredAccess |} |})
  end.

Definition readlink (deser : Cursor) (xid : Z) : M D unit :=
  serializeReply SUCCESS xid;;
  args ← liftTry (deserialize (A := READLINK3args) deser);
  let context := getNullContextWithCauseDetail "readlink" in
  tryAttr ← dispatcher_getattr (ino (symlink_fh args)) context;
  tryReadlink ← dispatcher_readlink (ino (symlink_fh args)) context;
  match tryReadlink with
  | Exception e =>
      serialize (Xdr_READLINK3res
        {| status := exceptionToNfsError e;
           body := inr {| readlinkfail_symlink_attributes :=
                            statToPostOpAttr tryAttr |} |})
  | Value link =>
      serialize (Xdr_READLINK3res
        {| status := NFS3_OK;
           body := inl {| symlink_attributes := statToPostOpAttr tryAttr;
                          readlink_data := link |} |})
  end.

Definition read (deser : Cursor) (xid : Z) : M D unit :=
  serializeReply PROC_UNAVAIL xid.

Definition write (deser : Cursor) (xid : Z) : M D unit :=
  serializeReply SUCCESS xid;;
  args ← liftTry (deserialize (A := WRITE3args) deser);
  let context := getNullContextWithCauseDetail "write" in
  (* let's only take up to count bytes from the data *)
  buf ← liftTry (IOBufQueue_split (data args) (count args));
  writeTry ← dispatcher_write (ino (file args)) buf (offset args) context;
  match writeTry with
  | Exception e =>
      serialize (Xdr_WRITE3res
        {| status := exceptionToNfsError e;
           body := inr {| writefail_file_wcc := wcc_data_default |} |})
  | Value writeRes =>
      serialize (Xdr_WRITE3res
        {| status := NFS3_OK;
           body := inl
             {| file_wcc :=
                  {| before := match preStat writeRes with
                               | Some st => statToPreOpAttr st
                               | None => None
                               end;
                     after := match postStat writeRes with
                              | Some st => Some (statToFattr3 st)
                              | None => None
                              end |};
                write_count := to_narrow32 (written writeRes);
                committed := FILE_SYNC;
                verf := makeWriteVerf |} |})
  end.

Definition create (deser : Cursor) (xid : Z) : M D unit :=
  serializeReply SUCCESS xid;;
  args ← liftTry (deserialize (A := CREATE3args) deser);
  let context := getNullContextWithCauseDetail "create" in
  match tag (how args) with
  | EXCLUSIVE =>
      (* Exclusive file creation is complicated, for now let's not
         support it. *)
      serialize (Xdr_CREATE3res
        {| status := NFS3ERR_NOTSUPP;
           body := inr {| createfail_dir_wcc := wcc_data_default |} |})
  | createmode =>
      attr ← liftTry (std_get_sattr3 (v (how args)));
      (* If the mode isn't set, make it writable by the owner, readable by
         the group and other. *)
      let mode := match sattr_mode attr with
                  | Some m => m
                  | None => Z.lor S_IFREG 0x1A4 (* 0644 *)
                  end in
      component ← liftTry (mkPathComponent (name (create_where args)));
      try_ ← dispatcher_create (ino (dir (create_where args))) component mode
               context;
      match try_ with
      | Exception e =>
          if match createmode with UNCHECKED => true | _ => false end
             && isEexist e
          then
            log (XLOG_WARN "Unchecked file creation returned EEXIST");;
            serialize (Xdr_CREATE3res
              {| status := NFS3_OK;
                 body := inl {| create_obj := None;
                                create_obj_attributes := None;
                                create_dir_wcc :=
                                  {| before := None; after := None |} |} |})
          else
            serialize (Xdr_CREATE3res
              {| status := exceptionToNfsError e;
                 body := inr {| createfail_dir_wcc := wcc_data_default |} |})
      | Value createRes =>
          serialize (Xdr_CREATE3res
            {| status := NFS3_OK;
               body := inl
                 {| create_obj := Some {| ino := create_ino createRes |};
                    create_obj_attributes :=
                      Some (statToFattr3 (create_stat createRes));
                    create_dir_wcc :=
                      {| before := match create_preDirStat createRes with
                                   | Some st => statToPreOpAttr st
                                   | None => None
                                   end;
                         after := match create_postDirStat createRes with
                                  | Some st => Some (statToFattr3 st)
                                  | None => None
                                  end |} |} |})
      end
  end.

Definition mkdir (deser : Cursor) (xid : Z) : M D unit :=
  serializeReply SUCCESS xid;;
  args ← liftTry (deserialize (A := MKDIR3args) deser);
  let context := getNullContextWithCauseDetail "mkdir" in
  (* Don't allow creating this directory and its parent. *)
  if String.eqb (name (mkdir_where args)) "."
     || String.eqb (name (mkdir_where args)) ".."
  then
    serialize (Xdr_MKDIR3res
      {| status := NFS3ERR_EXIST;
         body := inr {| mkdirfail_dir_wcc := wcc_data_default |} |})
  else
    (* If the mode isn't set, make it writable by the owner, readable by
       the group and traversable by other. *)
    let mode := match sattr_mode (attributes args) with
                | Some m => m
                | None => Z.lor S_IFDIR 0x1E9 (* 0751 *)
                end in
    component ← liftTry (mkPathComponent (name (mkdir_where args)));
    try_ ← dispatcher_mkdir (ino (dir (mkdir_where args))) component mode
             context;
    match try_ with
    | Exception e =>
        serialize (Xdr_MKDIR3res
          {| status := exceptionToNfsError e;
             body := inr {| mkdirfail_dir_wcc := wcc_data_default |} |})
    | Value mkdirRes =>
        serialize (Xdr_MKDIR3res
          {| status := NFS3_OK;
             body := inl
               {| mkdir_obj := Some {| ino := mkdir_ino mkdirRes |};
                  mkdir_obj_attributes :=
                    Some (statToFattr3 (mkdir_stat mkdirRes));
                  mkdir_dir_wcc :=
                    {| before := match mkdir_preDirStat mkdirRes with
                                 | Some st => statToPreOpAttr st
                                 | None => None
                                 end;
                       after := match mkdir_postDirStat mkdirRes with
                                | Some st => Some (statToFattr3 st)
                                | None => None
                                end |} |} |})
    end.

Definition symlink (deser : Cursor) (xid : Z) : M D unit :=
  serializeReply PROC_UNAVAIL xid.

Definition mknod (deser : Cursor) (xid : Z) : M D unit :=
  serializeReply PROC_UNAVAIL xid.

Definition remove (deser : Cursor) (xid : Z) : M D unit :=
  serializeReply PROC_UNAVAIL xid.

Definition rmdir (deser : Cursor) (xid : Z) : M D unit :=
  serializeReply PROC_UNAVAIL xid.

Definition rename (deser : Cursor) (xid : Z) : M D unit :=
  serializeReply PROC_UNAVAIL xid.

Definition link (deser : Cursor) (xid : Z) : M D unit :=
  serializeReply SUCCESS xid;;
  args ← liftTry (deserialize (A := LINK3args) deser);
  let context := getNullContextWithCauseDetail "link" in
  (* EdenFS doesn't support hardlinks, let's just collect the attributes
     for the file and fail. *)
  try_ ← dispatcher_getattr (ino (link_file args)) context;
  serialize (Xdr_LINK3res
    {| status := NFS3ERR_NOTSUPP;
       body := inr {| linkfail_file_attributes := statToPostOpAttr try_;
                      linkfail_linkdir_wcc := wcc_data_default |} |}).

Definition readdir (deser : Cursor) (xid : Z) : M D unit :=
  serializeReply PROC_UNAVAIL xid.

Definition readdirplus (deser : Cursor) (xid : Z) : M D unit :=
  serializeReply PROC_UNAVAIL xid.

Definition fsstat (deser : Cursor) (xid : Z) : M D unit :=
  serializeReply SUCCESS xid;;
  args ← liftTry (deserialize (A := FSSTAT3args) deser);
  let context := getNullContextWithCauseDetail "fsstat" in
  statFsTry ← dispatcher_statfs (ino (fsroot args)) context;
  statTry ← dispatcher_getattr (ino (fsroot args)) context;
  match statFsTry with
  | Exception e =>
      serialize (Xdr_FSSTAT3res
        {| status := exceptionToNfsError e;
           body := inr {| fsstatfail_obj_attributes :=
                            statToPostOpAttr statTry |} |})
  | Value sfs =>
      serialize (Xdr_FSSTAT3res
        {| status := NFS3_OK;
           body := inl
             {| fsstat_obj_attributes := statToPostOpAttr statTry;
                tbytes := mul64 (f_blocks sfs) (f_bsize sfs);
                fbytes := mul64 (f_bfree sfs) (f_bsize sfs);
                abytes := mul64 (f_bavail sfs) (f_bavail sfs);
                tfiles := f_files sfs;
                ffiles := f_ffree sfs;
                afiles := f_ffree sfs;
                invarsec := 0 |} |})
  end.

Definition fsinfo (deser : Cursor) (xid : Z) : M D unit :=
  serializeReply SUCCESS xid;;
  args ← liftTry (deserialize (A := FSINFO3args) deser);
  serialize (Xdr_FSINFO3res
    {| status := NFS3_OK;
       body := inl
         {| fsinfo_obj_attributes := None;
            rtmax := 1024 * 1024;
            rtpref := 1024 * 1024;
            rtmult := 1;
            wtmax := 1024 * 1024;
            wtpref := 1024 * 1024;
            wtmult := 1;
            dtpref := 1024 * 1024;
            maxfilesize := 2 ^ 64 - 1;
            time_delta := {| seconds := 0; nseconds := 1 |};
            properties :=
              Z.lor (Z.lor FSF3_SYMLINK FSF3_HOMOGENEOUS) FSF3_CANSETTIME
         |} |}).

Definition pathconf (deser : Cursor) (xid : Z) : M D unit :=
  serializeReply SUCCESS xid;;
  args ← liftTry (deserialize (A := PATHCONF3args) deser);
  serialize (Xdr_PATHCONF3res
    {| status := NFS3_OK;
       body := inl
         {| pathconf_obj_attributes := None;
            linkmax := 0;
            name_max := NAME_MAX;
            no_trunc := true;
            chown_restricted := true;
            case_insensitive := negb caseSensitive_;
            case_preserving := true |} |}).

Definition commit (deser : Cursor) (xid : Z) : M D unit :=
  serializeReply PROC_UNAVAIL xid.

(** *** The handler table *)

Definition Handler : Type := Cursor -> Z -> M D unit.

(** A default-constructed entry has an empty name and a null handler. *)
Record HandlerEntry : Type := mk_HandlerEntry {
  handler_name : string;
  handler : option Handler
}.

Definition HandlerEntry_default : HandlerEntry :=
  {| handler_name := ""; handler := None |}.

Definition entry (n : string) (h : Handler) : HandlerEntry :=
  {| handler_name := n; handler := Some h |}.

Definition kNfs3dHandlers : list HandlerEntry :=
  let handlers := replicate 22 HandlerEntry_default in
  let handlers := <[to_underlying proc_null := entry "NULL" null]> handlers in
  let handlers := <[to_underlying proc_getattr := entry "GETATTR" getattr]> handlers in
  let handlers := <[to_underlying proc_setattr := entry "SETATTR" setattr]> handlers in
  let handlers := <[to_underlying proc_lookup := entry "LOOKUP" lookup]> handlers in
  let handlers := <[to_underlying proc_access := entry "ACCESS" access]> handlers in
  let handlers := <[to_underlying proc_readlink := entry "READLINK" readlink]> handlers in
  let handlers := <[to_underlying proc_read := entry "READ" read]> handlers in
  let handlers := <[to_underlying proc_write := entry "WRITE" write]> handlers in
  let handlers := <[to_underlying proc_create := entry "CREATE" create]> handlers in
  let handlers := <[to_underlying proc_mkdir := entry "MKDIR" mkdir]> handlers in
  let handlers := <[to_underlying proc_symlink := entry "SYMLINK" symlink]> handlers in
  let handlers := <[to_underlying proc_mknod := entry "MKNOD" mknod]> handlers in
  let handlers := <[to_underlying proc_remove := entry "REMOVE" remove]> handlers in
  let handlers := <[to_underlying proc_rmdir := entry "RMDIR" rmdir]> handlers in
  let handlers := <[to_underlying proc_rename := entry "RENAME" rename]> handlers in
  let handlers := <[to_underlying proc_link := entry "LINK" link]> handlers in
  let handlers := <[to_underlying proc_readdir := entry "READDIR" readdir]> handlers in
  let handlers := <[to_underlying proc_readdirplus := entry "READDIRPLUS" readdirplus]> handlers in
  let handlers := <[to_underlying proc_fsstat := entry "FSSTAT" fsstat]> handlers in
  let handlers := <[to_underlying proc_fsinfo := entry "FSINFO" fsinfo]> handlers in
  let handlers := <[to_underlying proc_pathconf := entry "PATHCONF" pathconf]> handlers in
  let handlers := <[to_underlying proc_commit := entry "COMMIT" commit]> handlers in
  handlers.

(** *** The dispatch router *)

Definition dispatchRpc (deser : Cursor) (xid progNumber progVersion procNumber : Z)
    : M D unit :=
  if negb (progNumber =? kNfsdProgNumber) then
    serializeReply PROG_UNAVAIL xid
  else if negb (progVersion =? kNfsd3ProgVersion) then
    serializeReply PROG_MISMATCH xid;;
    serialize (Xdr_mismatch_info
      {| low := kNfsd3ProgVersion; high := kNfsd3ProgVersion |})
  else if Z.of_nat (length kNfs3dHandlers) <=? procNumber then
    log (XLOG_ERR "Invalid procedure: " procNumber);;
    serializeReply PROC_UNAVAIL xid
  else
    match kNfs3dHandlers !! Z.to_nat procNumber with
    | Some handlerEntry =>
        log (FB_LOGF_DBG7 (handler_name handlerEntry));;
        match handler handlerEntry with
        | Some h => h deser xid
        | None => throw (other_exception "call through a null handler")
        end
    | None => throw (other_exception "handler index out of range")
    end.

(** The handler that procedure [p] of RFC 1813 names. *)
Definition handlerOf (p : nfsv3Procs) : Handler :=
  match p with
  | proc_null => null | proc_getattr => getattr | proc_setattr => setattr
  | proc_lookup => lookup | proc_access => access
  | proc_readlink => readlink | proc_read => read | proc_write => write
  | proc_create => create | proc_mkdir => mkdir | proc_symlink => symlink
  | proc_mknod => mknod | proc_remove => remove | proc_rmdir => rmdir
  | proc_rename => rename | proc_link => link | proc_readdir => readdir
  | proc_readdirplus => readdirplus | proc_fsstat => fsstat
  | proc_fsinfo => fsinfo | proc_pathconf => pathconf
  | proc_commit => commit
  end.
End Processor.
End Nfsd3ServerProcessor.

(** ** Vocabulary of the statements *)

(** The name RFC 1813 gives to each procedure, as the handler table spells
    it for the trace log. *)
Definition procName (p : nfsv3Procs) : string :=
  match p with
  | proc_null => "NULL" | proc_getattr => "GETATTR" | proc_setattr => "SETATTR"
  | proc_lookup => "LOOKUP" | proc_access => "ACCESS"
  | proc_readlink => "READLINK" | proc_read => "READ" | proc_write => "WRITE"
  | proc_create => "CREATE" | proc_mkdir => "MKDIR" | proc_symlink => "SYMLINK"
  | proc_mknod => "MKNOD" | proc_remove => "REMOVE" | proc_rmdir => "RMDIR"
  | proc_rename => "RENAME" | proc_link => "LINK" | proc_readdir => "READDIR"
  | proc_readdirplus => "READDIRPLUS" | proc_fsstat => "FSSTAT"
  | proc_fsinfo => "FSINFO" | proc_pathconf => "PATHCONF"
  | proc_commit => "COMMIT"
  end.

(** The [nfsstat3] a serialized item carries, if it is a procedure result. *)
Definition itemStatus (x : XdrItem) : option nfsstat3 :=
  match x with
  | Xdr_reply _ _ | Xdr_mismatch_info _ => None
  | Xdr_GETATTR3res r => Some (status r)
  | Xdr_LOOKUP3res r => Some (status r)
  | Xdr_ACCESS3res r => Some (status r)
  | Xdr_READLINK3res r => Some (status r)
  | Xdr_WRITE3res r => Some (status r)
  | Xdr_CREATE3res r => Some (status r)
  | Xdr_MKDIR3res r => Some (status r)
  | Xdr_LINK3res r => Some (status r)
  | Xdr_FSSTAT3res r => Some (status r)
  | Xdr_FSINFO3res r => Some (status r)
  | Xdr_PATHCONF3res r => Some (status r)
  end.



(** ** A concrete server: the scenarios of section 8 of the specification *)

Module Scenario.

(** Errno errors are those of the generic and the system category. *)
Definition systemError : SystemError :=
  {| isErrnoError := fun c =>
       match category c with
       | generic_category | system_category => true
       | other_category _ => false
       end |}.

(** A path component must not be empty. *)
Definition pathFuncs : PathFuncs :=
  {| mkPathComponent := fun s =>
       if String.eqb s ""
       then Exception (other_exception "std::domain_error")
       else Value {| stringPiece := s |} |}.

(** The values RFC 1813 assigns. *)
Definition rpcConstants : NfsdRpcConstants :=
  {| kReadOwnerBit := 0x100;
     kWriteOwnerBit := 0x80;
     kExecOwnerBit := 0x40;
     kReadGroupBit := 0x20;
     FSF3_SYMLINK := 0x2;
     FSF3_HOMOGENEOUS := 0x8;
     FSF3_CANSETTIME := 0x10 |}.

(** A request cursor: either too short for any argument structure, or
    holding the encoding of one. *)
Inductive TestCursor : Type :=
| Truncated
| Holds_GETATTR3args (a : GETATTR3args)
| Holds_LOOKUP3args (a : LOOKUP3args)
| Holds_ACCESS3args (a : ACCESS3args)
| Holds_READLINK3args (a : READLINK3args)
| Holds_WRITE3args (a : WRITE3args)
| Holds_CREATE3args (a : CREATE3args)
| Holds_MKDIR3args (a : MKDIR3args)
| Holds_LINK3args (a : LINK3args)
| Holds_FSSTAT3args (a : FSSTAT3args)
| Holds_FSINFO3args (a : FSINFO3args)
| Holds_PATHCONF3args (a : PATHCONF3args).

Definition out_of_range : exception_wrapper :=
  other_exception "std::out_of_range".

Definition xdr_GETATTR3args : XdrTrait TestCursor GETATTR3args :=
  {| deserialize c := match c with Holds_GETATTR3args a => Value a
                                 | _ => Exception out_of_range end |}.
Definition xdr_LOOKUP3args : XdrTrait TestCursor LOOKUP3args :=
  {| deserialize c := match c with Holds_LOOKUP3args a => Value a
                                 | _ => Exception out_of_range end |}.
Definition xdr_ACCESS3args : XdrTrait TestCursor ACCESS3args :=
  {| deserialize c := match c with Holds_ACCESS3args a => Value a
                                 | _ => Exception out_of_range end |}.
Definition xdr_READLINK3args : XdrTrait TestCursor READLINK3args :=
  {| deserialize c := match c with Holds_READLINK3args a => Value a
                                 | _ => Exception out_of_range end |}.
Definition xdr_WRITE3args : XdrTrait TestCursor WRITE3args :=
  {| deserialize c := match c with Holds_WRITE3args a => Value a
                                 | _ => Exception out_of_range end |}.
Definition xdr_CREATE3args : XdrTrait TestCursor CREATE3args :=
  {| deserialize c := match c with Holds_CREATE3args a => Value a
                                 | _ => Exception out_of_range end |}.
Definition xdr_MKDIR3args : XdrTrait TestCursor MKDIR3args :=
  {| deserialize c := match c with Holds_MKDIR3args a => Value a
                                 | _ => Exception out_of_range end |}.
Definition xdr_LINK3args : XdrTrait TestCursor LINK3args :=
  {| deserialize c := match c with Holds_LINK3args a => Value a
                                 | _ => Exception out_of_range end |}.
Definition xdr_FSSTAT3args : XdrTrait TestCursor FSSTAT3args :=
  {| deserialize c := match c with Holds_FSSTAT3args a => Value a
                                 | _ => Exception out_of_range end |}.
Definition xdr_FSINFO3args : XdrTrait TestCursor FSINFO3args :=
  {| deserialize c := match c with Holds_FSINFO3args a => Value a
                                 | _ => Exception out_of_range end |}.
Definition xdr_PATHCONF3args : XdrTrait TestCursor PATHCONF3args :=
  {| deserialize c := match c with Holds_PATHCONF3args a => Value a
                                 | _ => Exception out_of_range end |}.

Definition errnoError (errno : Z) : exception_wrapper :=
  std_system_error {| category := generic_category; value := errno |}.

Definition epoch : timespec := {| tv_sec := 0; tv_nsec := 0 |}.

Definition statOf (inode mode : Z) : stat :=
  {| st_mode := mode; st_nlink := 1; st_uid := 0; st_gid := 0;
     st_size := 0; st_blocks := 0; st_dev := 0; st_ino := inode;
     st_atim := epoch; st_mtim := epoch; st_ctim := epoch |}.

(** inode 1 is the root directory, inode 42 a directory in it, inode 43
    the regular file "hello.txt" in directory 42. *)
Definition rootStat : stat := statOf 1 (Z.lor S_IFDIR 0x1ED).
Definition dirStat : stat := statOf 42 (Z.lor S_IFDIR 0x1ED).
Definition fileStat : stat := statOf 43 (Z.lor S_IFREG 0x1A4).

Definition fsStat : statfs :=
  {| f_bsize := 4096; f_blocks := 1000; f_bfree := 500; f_bavail := 400;
     f_files := 256; f_ffree := 100 |}.

(** The state of the filesystem is the number of operations it served. *)
Definition dispatcher : NfsDispatcher nat :=
  {| disp_getattr i _ d :=
       (if i =? 1 then Value rootStat
        else if i =? 42 then Value dirStat
        else if i =? 43 then Value fileStat
        else Exception (errnoError ENOENT), S d);
     disp_getParent i _ d :=
       (if i =? 42 then Value 1 else Exception (errnoError ENOENT), S d);
     disp_lookup i n _ d :=
       (if (i =? 42) && String.eqb (stringPiece n) "hello.txt"
        then Value (43, fileStat)
        else Exception (errnoError ENOENT), S d);
     disp_readlink i _ d := (Exception (errnoError EINVAL), S d);
     disp_write i buf off _ d :=
       (Value {| written := Z.of_nat (length buf); preStat := None;
                 postStat := Some fileStat |}, S d);
     disp_create i n m _ d :=
       (if String.eqb (stringPiece n) "hello.txt"
        then Exception (errnoError EEXIST)
        else Value {| create_ino := 44; create_stat := statOf 44 m;
                      create_preDirStat := Some dirStat;
                      create_postDirStat := Some dirStat |}, S d);
     disp_mkdir i n m _ d :=
       (Value {| mkdir_ino := 45; mkdir_stat := statOf 45 m;
                 mkdir_preDirStat := Some dirStat;
                 mkdir_postDirStat := Some dirStat |}, S d);
     disp_statfs i _ d := (Value fsStat, S d) |}.

Definition caseSensitive : bool := true.
End Scenario.

(** *** Requests of the scenarios *)

Definition noAttributes : sattr3 :=
  {| sattr_mode := None; sattr_uid := None; sattr_gid := None;
     sattr_size := None; sattr_atime := DONT_CHANGE;
     sattr_mtime := DONT_CHANGE |}.

Definition createArgs (n : string) (m : createmode3)
    (x : sattr3 + createverf3) : CREATE3args :=
  {| create_where := {| dir := {| ino := 42 |}; name := n |};
     how := {| tag := m; v := x |} |}.

Definition createRequest (n : string) (m : createmode3)
    (x : sattr3 + createverf3) : Scenario.TestCursor :=
  Scenario.Holds_CREATE3args (createArgs n m x).

Definition lookupArgs (i : InodeNumber) (n : string) : LOOKUP3args :=
  {| what := {| dir := {| ino := i |}; name := n |} |}.

Definition lookupRequest (i : InodeNumber) (n : string) : Scenario.TestCursor :=
  Scenario.Holds_LOOKUP3args (lookupArgs i n).

(** A name of 256 characters. *)
Definition longName : string := string_of_list_ascii (repeat "a"%char 256).

Definition writeArgs : WRITE3args :=
  {| file := {| ino := 43 |}; offset := 0; count := 2; stable := UNSTABLE;
     data := ["a"%byte; "b"%byte; "c"%byte] |}.

Definition writeRequest : Scenario.TestCursor :=
  Scenario.Holds_WRITE3args writeArgs.

Definition mkdirArgs (n : string) : MKDIR3args :=
  {| mkdir_where := {| dir := {| ino := 42 |}; name := n |};
     attributes := noAttributes |}.

Definition mkdirRequest (n : string) : Scenario.TestCursor :=
  Scenario.Holds_MKDIR3args (mkdirArgs n).

Definition fsstatArgs (i : InodeNumber) : FSSTAT3args :=
  {| fsroot := {| ino := i |} |}.

Definition fsstatRequest (i : InodeNumber) : Scenario.TestCursor :=
  Scenario.Holds_FSSTAT3args (fsstatArgs i).

(** ** Vocabulary of the further statements *)

(** The procedures whose handler refuses at the accept level. *)
Definition isUnavailable (p : nfsv3Procs) : bool :=
  match p with
  | proc_setattr | proc_read | proc_symlink | proc_mknod | proc_remove
  | proc_rmdir | proc_rename | proc_readdir | proc_readdirplus
  | proc_commit => true
  | _ => false
  end.

(** The procedures answered without consulting the filesystem. *)
Definition isStatic (p : nfsv3Procs) : bool :=
  match p with
  | proc_null | proc_fsinfo | proc_pathconf => true
  | _ => isUnavailable p
  end.

(** The procedure a mutating dispatcher operation belongs to. *)
Definition mutatingProcedure (c : DispatcherCall) : option nfsv3Procs :=
  match c with
  | CallWrite _ _ _ _ _ => Some proc_write
  | CallCreate _ _ _ _ _ => Some proc_create
  | CallMkdir _ _ _ _ _ => Some proc_mkdir
  | _ => None
  end.

(** The statuses the error map returns. *)
Definition errorStatuses : list nfsstat3 :=
  [NFS3ERR_PERM; NFS3ERR_NOENT; NFS3ERR_IO; NFS3ERR_NXIO; NFS3ERR_ACCES;
   NFS3ERR_EXIST; NFS3ERR_XDEV; NFS3ERR_NODEV; NFS3ERR_NOTDIR; NFS3ERR_ISDIR;
   NFS3ERR_INVAL; NFS3ERR_FBIG; NFS3ERR_ROFS; NFS3ERR_MLINK;
   NFS3ERR_NAMETOOLONG; NFS3ERR_NOTEMPTY; NFS3ERR_DQUOT; NFS3ERR_STALE;
   NFS3ERR_JUKEBOX; NFS3ERR_NOTSUPP; NFS3ERR_SERVERFAULT].

(** A filesystem that answers getattr like the one of the scenarios, serves
    readlink, names inode 7, which it does not know, as the parent of
    directory 42, and fails every other operation. *)
Definition failingDispatcher : NfsDispatcher nat :=
  {| disp_getattr := disp_getattr Scenario.dispatcher;
     disp_getParent i _ d :=
       (if i =? 42 then Value 7 else Exception (Scenario.errnoError ESTALE),
        S d);
     disp_lookup i n _ d := (Exception (Scenario.errnoError ENOENT), S d);
     disp_readlink i _ d := (Value "hello.txt", S d);
     disp_write i buf off _ d := (Exception (Scenario.errnoError EROFS), S d);
     disp_create i n m _ d := (Exception (Scenario.errnoError EROFS), S d);
     disp_mkdir i n m _ d := (Exception (Scenario.errnoError EEXIST), S d);
     disp_statfs i _ d := (Exception (Scenario.errnoError EIO), S d) |}.

Definition getattrArgs (i : InodeNumber) : GETATTR3args :=
  {| getattr_object := {| ino := i |} |}.

Definition getattrRequest (i : InodeNumber) : Scenario.TestCursor :=
  Scenario.Holds_GETATTR3args (getattrArgs i).

Definition accessArgs (i : InodeNumber) (mask : Z) : ACCESS3args :=
  {| access_object := {| ino := i |}; access_mask := mask |}.

Definition accessRequest (i : InodeNumber) (mask : Z) : Scenario.TestCursor :=
  Scenario.Holds_ACCESS3args (accessArgs i mask).

Definition readlinkArgs (i : InodeNumber) : READLINK3args :=
  {| symlink_fh := {| ino := i |} |}.

Definition readlinkRequest (i : InodeNumber) : Scenario.TestCursor :=
  Scenario.Holds_READLINK3args (readlinkArgs i).

Definition linkArgs (i : InodeNumber) : LINK3args :=
  {| link_file := {| ino := i |};
     link_to := {| dir := {| ino := 42 |}; name := "alias" |} |}.

Definition linkRequest (i : InodeNumber) : Scenario.TestCursor :=
  Scenario.Holds_LINK3args (linkArgs i).

(** A WRITE that announces more bytes than it carries. *)
Definition shortWriteArgs : WRITE3args :=
  {| file := {| ino := 43 |}; offset := 0; count := 5; stable := FILE_SYNC;
     data := ["a"%byte; "b"%byte; "c"%byte] |}.

Definition shortWriteRequest : Scenario.TestCursor :=
  Scenario.Holds_WRITE3args shortWriteArgs.

Definition modeAttributes (m : Z) : sattr3 :=
  {| sattr_mode := Some m; sattr_uid := None; sattr_gid := None;
     sattr_size := None; sattr_atime := DONT_CHANGE;
     sattr_mtime := DONT_CHANGE |}.


(** * Properties *)

(** ** The error map against the table of section 4.1 *)

Lemma existsb_eqb_elem_of (c : Z) (errnos : list Z) :
  existsb (Z.eqb c) errnos = true <-> c ∈ errnos.
Proof.
  rewrite existsb_exists, list_elem_of_In. split.
  - intros (x & Hin & Heq). apply Z.eqb_eq in Heq. now subst.
  - intros Hin. exists c. split; [assumption | apply Z.eqb_refl].
Qed.

(** An errno that no row lists falls through to the default. *)
Lemma spec_table_lookup_miss (rows : list (list Z * nfsstat3)) (c : Z) :
  (forall row, row ∈ rows -> c ∉ fst row) ->
  spec_table_lookup rows c = NFS3ERR_SERVERFAULT.
Proof.
  induction rows as [| [errnos st] rest IH]; intros Hmiss; simpl.
  - reflexivity.
  - destruct (existsb (Z.eqb c) errnos) eqn:Hhit.
    + apply existsb_eqb_elem_of in Hhit.
      exfalso. apply (Hmiss (errnos, st)); [left | exact Hhit].
    + apply IH. intros row Hrow. apply Hmiss. now right.
Qed.

(** When no errno is listed twice, the row that lists an errno decides. *)
Lemma spec_table_lookup_hit (rows : list (list Z * nfsstat3)) (c : Z)
    (row : list Z * nfsstat3) :
  NoDup (concat (map fst rows)) ->
  row ∈ rows -> c ∈ fst row ->
  spec_table_lookup rows c = snd row.
Proof.
  induction rows as [| [errnos st] rest IH]; intros Hnd Hrow Hc.
  - inversion Hrow.
  - simpl in Hnd. apply NoDup_app in Hnd as (_ & Hdisj & Hrest).
    simpl. apply elem_of_cons in Hrow as [-> | Hrow].
    + simpl in Hc. apply existsb_eqb_elem_of in Hc. now rewrite Hc.
    + destruct (existsb (Z.eqb c) errnos) eqn:Hhit.
      * apply existsb_eqb_elem_of in Hhit. exfalso.
        apply (Hdisj c Hhit). apply list_elem_of_In, in_concat.
        exists (fst row). split; [| now apply list_elem_of_In].
        apply in_map. now apply list_elem_of_In.
      * now apply IH.
Qed.

Lemma spec_error_table_NoDup : NoDup (concat (map fst spec_error_table)).
Proof.
  apply (bool_decide_unpack (NoDup (concat (map fst spec_error_table)))).
  vm_compute. exact I.
Qed.

Section ErrorMapFacts.
Context `{SystemError}.

(** The [switch] of [exceptionToNfsError] is a lookup in the table. *)
Lemma exceptionToNfsError_errno (err : error_code) :
  isErrnoError err = true ->
  exceptionToNfsError (std_system_error err) =
  spec_table_lookup spec_error_table (value err).
Proof.
  intros Herrno. unfold exceptionToNfsError. rewrite Herrno. simpl.
  rewrite !orb_false_r. now rewrite orb_assoc.
Qed.

(** C2: the status [exceptionToNfsError] produces for an error that
    carries an errno is the one the row of the table of section 4.1
    listing that errno assigns (EPERM gives NFS3ERR_PERM, ...,
    ETIMEDOUT, EAGAIN and ENOMEM give NFS3ERR_JUKEBOX, ENOTSUP gives
    NFS3ERR_NOTSUPP, ENFILE gives NFS3ERR_SERVERFAULT); an errno that no
    row lists gives NFS3ERR_SERVERFAULT; an asynchronous timeout gives
    NFS3ERR_JUKEBOX; every other kind of error (a system error that
    carries no errno, or an exception of another type) gives
    NFS3ERR_SERVERFAULT. *)
Theorem exceptionToNfsError_follows_table :
  (forall err row,
      isErrnoError err = true ->
      row ∈ spec_error_table -> value err ∈ fst row ->
      exceptionToNfsError (std_system_error err) = snd row) /\
  (forall err,
      isErrnoError err = true ->
      (forall row, row ∈ spec_error_table -> value err ∉ fst row) ->
      exceptionToNfsError (std_system_error err) = NFS3ERR_SERVERFAULT) /\
  (forall err,
      isErrnoError err = false ->
      exceptionToNfsError (std_system_error err) = NFS3ERR_SERVERFAULT) /\
  exceptionToNfsError FutureTimeout = NFS3ERR_JUKEBOX /\
  (forall what,
      exceptionToNfsError (other_exception what) = NFS3ERR_SERVERFAULT).
Proof.
  repeat split.
  - intros err row Herrno Hrow Hc.
    rewrite (exceptionToNfsError_errno err Herrno).
    now apply spec_table_lookup_hit; [apply spec_error_table_NoDup | |].
  - intros err Herrno Hmiss.
    rewrite (exceptionToNfsError_errno err Herrno).
    now apply spec_table_lookup_miss.
  - intros err Hother. unfold exceptionToNfsError. now rewrite Hother.
Qed.
End ErrorMapFacts.

(** ** Attribute conversion and the error map, further facts *)

Section ConversionFacts.
Context `{SystemError} `{NfsdRpcConstants}.

Lemma land_format_of_lor (fmt perm : Z) :
  Z.land fmt S_IFMT = fmt -> Z.land perm S_IFMT = 0 ->
  Z.land (Z.lor fmt perm) S_IFMT = fmt.
Proof.
  intros Hfmt Hperm.
  now rewrite Z.land_lor_distr_l, Hfmt, Hperm, Z.lor_0_r.
Qed.

(** X1: the file type is decided by the format bits of the mode alone: for any
    permission bits outside the format mask, each of the seven [S_IF*]
    formats gives its NFS type; and a mode whose format bits are none of
    regular, directory, block, character, link or socket is reported as a
    FIFO, whatever those bits are. *)
Theorem modeToFtype3_format (mode perm : Z) :
  modeToFtype3 mode = modeToFtype3 (Z.land mode S_IFMT) /\
  (Z.land perm S_IFMT = 0 ->
   modeToFtype3 (Z.lor S_IFREG perm) = NF3REG /\
   modeToFtype3 (Z.lor S_IFDIR perm) = NF3DIR /\
   modeToFtype3 (Z.lor S_IFBLK perm) = NF3BLK /\
   modeToFtype3 (Z.lor S_IFCHR perm) = NF3CHR /\
   modeToFtype3 (Z.lor S_IFLNK perm) = NF3LNK /\
   modeToFtype3 (Z.lor S_IFSOCK perm) = NF3SOCK /\
   modeToFtype3 (Z.lor S_IFIFO perm) = NF3FIFO) /\
  (modeToFtype3 mode = NF3FIFO <->
   Z.land mode S_IFMT <> S_IFREG /\ Z.land mode S_IFMT <> S_IFDIR /\
   Z.land mode S_IFMT <> S_IFBLK /\ Z.land mode S_IFMT <> S_IFCHR /\
   Z.land mode S_IFMT <> S_IFLNK /\ Z.land mode S_IFMT <> S_IFSOCK).
Proof.
  split; [| split].
  - unfold modeToFtype3, S_ISREG, S_ISDIR, S_ISBLK, S_ISCHR, S_ISLNK, S_ISSOCK.
    now rewrite <- Z.land_assoc, Z.land_diag.
  - intros Hperm.
    unfold modeToFtype3, S_ISREG, S_ISDIR, S_ISBLK, S_ISCHR, S_ISLNK, S_ISSOCK.
    rewrite !land_format_of_lor by (reflexivity || assumption).
    repeat split.
  - unfold modeToFtype3, S_ISREG, S_ISDIR, S_ISBLK, S_ISCHR, S_ISLNK, S_ISSOCK.
    destruct (Z.eqb_spec (Z.land mode S_IFMT) S_IFREG);
      [split; [discriminate | tauto] |].
    destruct (Z.eqb_spec (Z.land mode S_IFMT) S_IFDIR);
      [split; [discriminate | tauto] |].
    destruct (Z.eqb_spec (Z.land mode S_IFMT) S_IFBLK);
      [split; [discriminate | tauto] |].
    destruct (Z.eqb_spec (Z.land mode S_IFMT) S_IFCHR);
      [split; [discriminate | tauto] |].
    destruct (Z.eqb_spec (Z.land mode S_IFMT) S_IFLNK);
      [split; [discriminate | tauto] |].
    destruct (Z.eqb_spec (Z.land mode S_IFMT) S_IFSOCK);
      [split; [discriminate | tauto] |].
    tauto.
Qed.

Lemma land_S_IXUSR (mode : Z) :
  Z.land mode S_IXUSR = if Z.testbit mode 6 then S_IXUSR else 0.
Proof.
  apply Z.bits_inj'. intros n Hn.
  rewrite Z.land_spec. change S_IXUSR with (2 ^ 6).
  rewrite Z.pow2_bits_eqb by lia.
  destruct (Z.eqb_spec 6 n) as [<- | Hne].
  - rewrite andb_true_r. destruct (Z.testbit mode 6).
    + symmetry. apply Z.pow2_bits_true. lia.
    + symmetry. apply Z.bits_0.
  - rewrite andb_false_r. destruct (Z.testbit mode 6).
    + rewrite Z.pow2_bits_eqb by lia. symmetry. now apply Z.eqb_neq.
    + symmetry. apply Z.bits_0.
Qed.

(** X2: the NFS mode reflects one bit of the POSIX mode only, the owner's
    execute permission (bit 6): it is the owner-read, owner-write and
    group-read bits, with the owner-execute bit added exactly when that bit
    is set. Two POSIX modes that agree on that bit give the same NFS mode,
    so no group-write, group-execute or other permission ever shows. *)
Theorem modeToNfsMode_owner_exec_only (mode mode' : Z) :
  modeToNfsMode mode =
    Z.lor (Z.lor (Z.lor kReadOwnerBit kWriteOwnerBit) kReadGroupBit)
      (if Z.testbit mode 6 then kExecOwnerBit else 0) /\
  (Z.testbit mode 6 = Z.testbit mode' 6 ->
   modeToNfsMode mode = modeToNfsMode mode').
Proof.
  assert (Hmode : forall m,
    modeToNfsMode m =
      Z.lor (Z.lor (Z.lor kReadOwnerBit kWriteOwnerBit) kReadGroupBit)
        (if Z.testbit m 6 then kExecOwnerBit else 0)).
  { intros m. unfold modeToNfsMode. rewrite land_S_IXUSR.
    now destruct (Z.testbit m 6). }
  split; [apply Hmode |].
  intros Hbit. now rewrite !Hmode, Hbit.
Qed.

Lemma narrow_unsigned (x : Z) : to_narrow32 (to_unsigned64 x) = x mod 2 ^ 32.
Proof.
  unfold to_narrow32, to_unsigned64. apply Z.mod_mod_divide.
  exists (2 ^ 32). reflexivity.
Qed.

(** X3: both components of an NFS time are the [timespec] components reduced
    modulo 2^32: they always fit 32 bits, a component already in that range
    is kept, and a negative one wraps (one second before the epoch becomes
    4294967295). *)
Theorem timespecToNfsTime_wraps (time : timespec) :
  seconds (timespecToNfsTime time) = tv_sec time mod 2 ^ 32 /\
  nseconds (timespecToNfsTime time) = tv_nsec time mod 2 ^ 32 /\
  0 <= seconds (timespecToNfsTime time) < 2 ^ 32 /\
  0 <= nseconds (timespecToNfsTime time) < 2 ^ 32 /\
  (0 <= tv_sec time < 2 ^ 32 ->
   seconds (timespecToNfsTime time) = tv_sec time) /\
  (0 <= tv_nsec time < 2 ^ 32 ->
   nseconds (timespecToNfsTime time) = tv_nsec time) /\
  (tv_sec time = -1 -> seconds (timespecToNfsTime time) = 4294967295).
Proof.
  unfold timespecToNfsTime. cbn [seconds nseconds].
  rewrite !narrow_unsigned.
  repeat split; try (apply Z.mod_pos_bound; lia).
  - intros Hrange. now apply Z.mod_small.
  - intros Hrange. now apply Z.mod_small.
  - intros ->. reflexivity.
Qed.

(** X4: the [used] field is the block count times 512 in 64-bit unsigned
    arithmetic: always a multiple of 512 below 2^64, and exactly
    [st_blocks * 512] for a block count from 0 up to 2^55 - 1. The fields
    the conversion narrows fit their XDR width, [fileid] is the inode
    number, [fsid] the device number as unsigned, and [rdev] is always
    {0, 0}. *)
Theorem statToFattr3_fields (st : stat) :
  let attr := statToFattr3 st in
  used attr = (st_blocks st * 512) mod 2 ^ 64 /\
  (512 | used attr) /\
  (0 <= st_blocks st < 2 ^ 55 -> used attr = st_blocks st * 512) /\
  0 <= used attr < 2 ^ 64 /\
  0 <= size attr < 2 ^ 64 /\
  0 <= nlink attr < 2 ^ 32 /\
  fileid attr = st_ino st /\
  fsid attr = st_dev st mod 2 ^ 64 /\
  rdev attr = {| specdata1 := 0; specdata2 := 0 |}.
Proof.
  intros attr. subst attr. unfold statToFattr3.
  cbn [used size nlink fileid fsid rdev].
  assert (Hused : mul64 (to_unsigned64 (st_blocks st)) 512 =
                  (st_blocks st * 512) mod 2 ^ 64).
  { unfold mul64, to_unsigned64. now rewrite Z.mul_mod_idemp_l by lia. }
  rewrite Hused. unfold to_unsigned64, to_narrow32.
  repeat split; try (apply Z.mod_pos_bound; lia).
  - apply Z.mod_divide; [lia |].
    rewrite Z.mod_mod_divide by (exists (2 ^ 55); reflexivity).
    now rewrite Z.mod_mul by lia.
  - intros Hrange. apply Z.mod_small. lia.
Qed.

(** X5: the pre-operation attributes taken from a [stat] are the size, mtime
    and ctime of the full attributes taken from the same [stat]: a
    directory that did not change between the two samples of a wcc_data
    shows equal values on both sides. *)
Theorem statToPreOpAttr_agrees (st : stat) :
  statToPreOpAttr st =
    Some {| wcc_size := size (statToFattr3 st);
            wcc_mtime := mtime (statToFattr3 st);
            wcc_ctime := ctime (statToFattr3 st) |} /\
  (forall st',
     st_size st = st_size st' -> st_mtim st = st_mtim st' ->
     st_ctim st = st_ctim st' ->
     statToPreOpAttr st =
       Some {| wcc_size := size (statToFattr3 st');
               wcc_mtime := mtime (statToFattr3 st');
               wcc_ctime := ctime (statToFattr3 st') |}).
Proof.
  split; [reflexivity |].
  intros st' Hsize Hmtime Hctime.
  unfold statToPreOpAttr, statToFattr3. cbn [size mtime ctime].
  now rewrite Hsize, Hmtime, Hctime.
Qed.

(** X6: the range of the error map: whatever the exception, the status is one
    of the twenty-one error statuses the switch returns, never NFS3_OK (a
    failure is never reported as success), and never one of the statuses
    the file does not use. *)
Theorem exceptionToNfsError_range (ex : exception_wrapper) :
  In (exceptionToNfsError ex) errorStatuses /\
  exceptionToNfsError ex <> NFS3_OK.
Proof.
  assert (Hrange : In (exceptionToNfsError ex) errorStatuses).
  { destruct ex as [err | | what]; [| simpl; tauto ..].
    unfold exceptionToNfsError.
    destruct (isErrnoError err); cbn [negb]; [| simpl; tauto].
    repeat match goal with
           | |- context [if ?b then _ else _] => destruct b
           end; simpl; tauto. }
  split; [exact Hrange |].
  intros Hok. rewrite Hok in Hrange. simpl in Hrange.
  repeat (destruct Hrange as [Hrange | Hrange]; [discriminate Hrange |]).
  exact Hrange.
Qed.

(** X7: [isEexist] and the error map agree: an exception is an EEXIST condition
    exactly when the error map gives it the status NFS3ERR_EXIST. *)
Theorem isEexist_iff_status (ex : exception_wrapper) :
  isEexist ex = true <-> exceptionToNfsError ex = NFS3ERR_EXIST.
Proof.
  destruct ex as [err | | what]; try (split; discriminate).
  unfold isEexist, exceptionToNfsError.
  destruct (isErrnoError err); simpl; [| split; discriminate].
  destruct (Z.eqb_spec (value err) EEXIST) as [-> | Hne].
  - split; reflexivity.
  - split; [discriminate |].
    repeat match goal with
           | |- context [?x =? ?y] => destruct (Z.eqb_spec x y)
           end; cbn [orb]; discriminate.
Qed.
End ConversionFacts.

(** ** The handlers and the router *)

Section ProcessorFacts.
Import Nfsd3ServerProcessor.
Context {D Cursor : Type}.
Context `{SystemError} `{PathFuncs} `{NfsdRpcConstants}.
Context `{XdrTrait Cursor GETATTR3args} `{XdrTrait Cursor LOOKUP3args}
        `{XdrTrait Cursor ACCESS3args} `{XdrTrait Cursor READLINK3args}
        `{XdrTrait Cursor WRITE3args} `{XdrTrait Cursor CREATE3args}
        `{XdrTrait Cursor MKDIR3args} `{XdrTrait Cursor LINK3args}
        `{XdrTrait Cursor FSSTAT3args} `{XdrTrait Cursor FSINFO3args}
        `{XdrTrait Cursor PATHCONF3args}.
Variable dispatcher_ : NfsDispatcher D.
Variable caseSensitive_ : bool.

(** Every index of the table is the number of a procedure. *)
Lemma procNumber_covered (procNumber : Z) :
  0 <= procNumber < 22 ->
  exists p, procNumber = Z.of_nat (to_underlying p).
Proof.
  intros Hrange.
  assert (Hcases : procNumber = 0 \/ procNumber = 1 \/ procNumber = 2 \/
    procNumber = 3 \/ procNumber = 4 \/ procNumber = 5 \/ procNumber = 6 \/
    procNumber = 7 \/ procNumber = 8 \/ procNumber = 9 \/ procNumber = 10 \/
    procNumber = 11 \/ procNumber = 12 \/ procNumber = 13 \/
    procNumber = 14 \/ procNumber = 15 \/ procNumber = 16 \/
    procNumber = 17 \/ procNumber = 18 \/ procNumber = 19 \/
    procNumber = 20 \/ procNumber = 21) by lia.
  repeat (destruct Hcases as [-> | Hcases]); [.. | subst procNumber].
  - now exists proc_null.
  - now exists proc_getattr.
  - now exists proc_setattr.
  - now exists proc_lookup.
  - now exists proc_access.
  - now exists proc_readlink.
  - now exists proc_read.
  - now exists proc_write.
  - now exists proc_create.
  - now exists proc_mkdir.
  - now exists proc_symlink.
  - now exists proc_mknod.
  - now exists proc_remove.
  - now exists proc_rmdir.
  - now exists proc_rename.
  - now exists proc_link.
  - now exists proc_readdir.
  - now exists proc_readdirplus.
  - now exists proc_fsstat.
  - now exists proc_fsinfo.
  - now exists proc_pathconf.
  - now exists proc_commit.
Qed.

(** The slot of the table at a procedure's number holds that procedure's
    name and handler. *)
Lemma kNfs3dHandlers_lookup (p : nfsv3Procs) :
  kNfs3dHandlers dispatcher_ caseSensitive_ !! to_underlying p =
  Some (entry (procName p) (handlerOf dispatcher_ caseSensitive_ p)).
Proof. destruct p; reflexivity. Qed.

Lemma kNfs3dHandlers_size :
  length (kNfs3dHandlers dispatcher_ caseSensitive_) = 22%nat.
Proof. reflexivity. Qed.

(** A request for program 100003, version 3 and the number of procedure
    [p] logs the procedure's name and runs its handler. *)
Lemma dispatchRpc_handler (deser : Cursor) (xid : Z) (p : nfsv3Procs) (d : D) :
  dispatchRpc dispatcher_ caseSensitive_ deser xid 100003 3
    (Z.of_nat (to_underlying p)) d =
  (log (FB_LOGF_DBG7 (procName p));;
   handlerOf dispatcher_ caseSensitive_ p deser xid) d.
Proof.
  unfold dispatchRpc, kNfsdProgNumber, kNfsd3ProgVersion.
  rewrite kNfs3dHandlers_size, !Z.eqb_refl. simpl negb. cbv iota.
  destruct (Z.leb_spec (Z.of_nat 22) (Z.of_nat (to_underlying p)))
    as [Hge | _]; [destruct p; simpl in Hge; lia |].
  rewrite Nat2Z.id, kNfs3dHandlers_lookup. reflexivity.
Qed.

(** C1: [dispatchRpc] checks the program number, then the version, then
    the procedure number, in this order. A program other than 100003 is
    answered by the accept status PROG_UNAVAIL alone; otherwise a version
    other than 3 by PROG_MISMATCH followed by mismatch_info{3, 3};
    otherwise a procedure number of 22 or more by PROC_UNAVAIL alone;
    otherwise the handler of the procedure with that number is run on the
    request, and every number below 22 is the number of a procedure. In
    the three rejected cases no handler runs: nothing else is serialized
    and the dispatcher is left untouched. *)
Theorem dispatchRpc_routing (deser : Cursor) (xid prog progVer proc : Z) (d : D) :
  let run := dispatchRpc dispatcher_ caseSensitive_ deser xid prog progVer proc d in
  (prog <> 100003 ->
     run = mk_Run (Value ()) d [Serialized (Xdr_reply PROG_UNAVAIL xid)]) /\
  (prog = 100003 -> progVer <> 3 ->
     run = mk_Run (Value ()) d
             [Serialized (Xdr_reply PROG_MISMATCH xid);
              Serialized (Xdr_mismatch_info {| low := 3; high := 3 |})]) /\
  (prog = 100003 -> progVer = 3 -> 22 <= proc ->
     run = mk_Run (Value ()) d
             [Logged (XLOG_ERR "Invalid procedure: " proc);
              Serialized (Xdr_reply PROC_UNAVAIL xid)]) /\
  (prog = 100003 -> progVer = 3 -> 0 <= proc < 22 ->
     exists p, proc = Z.of_nat (to_underlying p) /\
       run = (log (FB_LOGF_DBG7 (procName p));;
              handlerOf dispatcher_ caseSensitive_ p deser xid) d).
Proof.
  unfold dispatchRpc, kNfsdProgNumber, kNfsd3ProgVersion.
  rewrite kNfs3dHandlers_size. cbv zeta.
  split; [| split; [| split]].
  - intros Hprog.
    destruct (Z.eqb_spec prog 100003) as [-> | _]; [congruence | reflexivity].
  - intros -> Hver. rewrite Z.eqb_refl. simpl negb. cbv iota.
    destruct (Z.eqb_spec progVer 3) as [-> | _]; [congruence | reflexivity].
  - intros -> -> Hproc. rewrite !Z.eqb_refl. simpl negb. cbv iota.
    destruct (Z.leb_spec (Z.of_nat 22) proc) as [_ | Hlt]; [reflexivity | lia].
  - intros -> -> Hproc.
    destruct (procNumber_covered proc Hproc) as [p ->].
    exists p. split; [reflexivity |].
    rewrite <- dispatchRpc_handler. unfold dispatchRpc.
    now rewrite kNfs3dHandlers_size.
Qed.

(** Unfolding the monad and the primitive effects of a handler. *)
Ltac run_handler :=
  unfold dispatcher_getattr, dispatcher_getParent, dispatcher_lookup,
    dispatcher_readlink, dispatcher_write, dispatcher_create,
    dispatcher_mkdir, dispatcher_statfs;
  unfold mbind, M_MBind, M_bind, mret, M_MRet, thenValue, thenValueFut,
    makeFutureWith, M_ret, serializeReply, serialize, log, emit,
    liftTry, throw, invoke;
  cbn [outcome dstate effects prepend app].

Ltac run_step :=
  repeat (progress (cbv beta iota;
                    cbn [outcome dstate effects prepend app orb andb negb])).

(** C5: a LOOKUP whose name is longer than NAME_MAX is answered
    NFS3ERR_NAMETOOLONG; the failure body carries the attributes of the
    directory when the getattr issued for it succeeded and the absent
    variant when that getattr failed; that getattr is the only dispatcher
    operation invoked, so the dispatcher's lookup is never invoked. *)
Theorem lookup_name_too_long (deser : Cursor) (xid : Z) (d d' : D)
    (args : LOOKUP3args) (dirAttr : Try stat) :
  deserialize deser = Value args ->
  NAME_MAX < Z.of_nat (String.length (name (what args))) ->
  disp_getattr dispatcher_ (ino (dir (what args)))
    (getNullContextWithCauseDetail "lookup") d = (dirAttr, d') ->
  let run := lookup dispatcher_ deser xid d in
  outcome run = Value () /\
  serialized (effects run) =
    [Xdr_reply SUCCESS xid;
     Xdr_LOOKUP3res
       {| status := NFS3ERR_NAMETOOLONG;
          body := inr {| lookupfail_dir_attributes :=
                           match dirAttr with
                           | Value st => Some (statToFattr3 st)
                           | Exception _ => None
                           end |} |}] /\
  dispatched (effects run) =
    [CallGetattr (ino (dir (what args)))
       (getNullContextWithCauseDetail "lookup") dirAttr] /\
  filter isLookupCall (dispatched (effects run)) = [].
Proof.
  intros Hargs Hlong Hattr. unfold lookup. run_handler.
  rewrite Hargs. run_step. rewrite Hattr. run_step.
  destruct (Z.ltb_spec NAME_MAX (Z.of_nat (String.length (name (what args)))))
    as [_ | Hshort]; [| lia].
  destruct dirAttr; repeat split.
Qed.

(** C4, as the code has it: a LOOKUP first asks the dispatcher for the
    attributes of the directory. Then, for the name ".", it asks for them
    again and, when that getattr succeeds, answers NFS3_OK with the
    request's own directory as file handle and the attributes that getattr
    returned; for the name "..", it asks getParent(dir) and then getattr
    of the parent and, when both succeed, answers NFS3_OK with the parent
    as file handle and the attributes getattr returned for the parent; for
    any other name of at most NAME_MAX characters that the PathComponent
    constructor accepts, it invokes the dispatcher's lookup on the
    directory and that name, and the reply is built from what lookup
    returned: its inode and attributes on success, the status of its
    error on failure; for such a name that the constructor rejects, the
    dispatcher's lookup is not invoked and the reply carries the status
    the error map gives the constructor's exception, with the directory
    attributes. *)
Theorem lookup_resolution (deser : Cursor) (xid : Z) (d d1 : D)
    (args : LOOKUP3args) (dirAttr : Try stat) :
  let dirIno := ino (dir (what args)) in
  let context := getNullContextWithCauseDetail "lookup" in
  let run := lookup dispatcher_ deser xid d in
  deserialize deser = Value args ->
  disp_getattr dispatcher_ dirIno context d = (dirAttr, d1) ->
  (name (what args) = "." ->
   forall st d2,
     disp_getattr dispatcher_ dirIno context d1 = (Value st, d2) ->
     run = mk_Run (Value ()) d2
       [Serialized (Xdr_reply SUCCESS xid);
        Dispatched (CallGetattr dirIno context dirAttr);
        Dispatched (CallGetattr dirIno context (Value st));
        Serialized (Xdr_LOOKUP3res
          {| status := NFS3_OK;
             body := inl {| lookup_object := {| ino := dirIno |};
                            lookup_obj_attributes := Some (statToFattr3 st);
                            lookup_dir_attributes :=
                              statToPostOpAttr dirAttr |} |})]) /\
  (name (what args) = ".." ->
   forall parent st d2 d3,
     disp_getParent dispatcher_ dirIno context d1 = (Value parent, d2) ->
     disp_getattr dispatcher_ parent context d2 = (Value st, d3) ->
     run = mk_Run (Value ()) d3
       [Serialized (Xdr_reply SUCCESS xid);
        Dispatched (CallGetattr dirIno context dirAttr);
        Dispatched (CallGetParent dirIno context (Value parent));
        Dispatched (CallGetattr parent context (Value st));
        Serialized (Xdr_LOOKUP3res
          {| status := NFS3_OK;
             body := inl {| lookup_object := {| ino := parent |};
                            lookup_obj_attributes := Some (statToFattr3 st);
                            lookup_dir_attributes :=
                              statToPostOpAttr dirAttr |} |})]) /\
  (name (what args) <> "." -> name (what args) <> ".." ->
   Z.of_nat (String.length (name (what args))) <= NAME_MAX ->
   forall component res d2,
     mkPathComponent (name (what args)) = Value component ->
     disp_lookup dispatcher_ dirIno component context d1 = (res, d2) ->
     run = mk_Run (Value ()) d2
       [Serialized (Xdr_reply SUCCESS xid);
        Dispatched (CallGetattr dirIno context dirAttr);
        Dispatched (CallLookup dirIno component context res);
        Serialized (Xdr_LOOKUP3res
          match res with
          | Value (i, st) =>
              {| status := NFS3_OK;
                 body := inl {| lookup_object := {| ino := i |};
                                lookup_obj_attributes :=
                                  Some (statToFattr3 st);
                                lookup_dir_attributes :=
                                  statToPostOpAttr dirAttr |} |}
          | Exception e =>
              {| status := exceptionToNfsError e;
                 body := inr {| lookupfail_dir_attributes :=
                                  statToPostOpAttr dirAttr |} |}
          end)]) /\
  (name (what args) <> "." -> name (what args) <> ".." ->
   Z.of_nat (String.length (name (what args))) <= NAME_MAX ->
   forall e,
     mkPathComponent (name (what args)) = Exception e ->
     run = mk_Run (Value ()) d1
       [Serialized (Xdr_reply SUCCESS xid);
        Dispatched (CallGetattr dirIno context dirAttr);
        Serialized (Xdr_LOOKUP3res
          {| status := exceptionToNfsError e;
             body := inr {| lookupfail_dir_attributes :=
                              statToPostOpAttr dirAttr |} |})]).
Proof.
  intros dirIno context run Hargs Hattr. subst dirIno context run.
  unfold lookup. run_handler.
  rewrite Hargs. run_step. rewrite Hattr. run_step.
  split; [| split; [| split]].
  - intros Hname st d2 Hself. rewrite Hname. cbn [String.length].
    change (NAME_MAX <? Z.of_nat 1) with false.
    change ("." =? ".")%string with true. run_step.
    rewrite Hself. reflexivity.
  - intros Hname parent st d2 d3 Hparent Hpattr. rewrite Hname.
    cbn [String.length].
    change (NAME_MAX <? Z.of_nat 2) with false.
    change (".." =? ".")%string with false.
    change (".." =? "..")%string with true. run_step.
    rewrite Hparent. run_step.
    rewrite Hpattr. reflexivity.
  - intros Hdot Hdotdot Hlen component res d2 Hcomp Hlookup.
    destruct (Z.ltb_spec NAME_MAX (Z.of_nat (String.length (name (what args)))))
      as [Hlong | _]; [lia |].
    destruct (String.eqb_spec (name (what args)) ".") as [Heq | _];
      [contradiction |].
    destruct (String.eqb_spec (name (what args)) "..") as [Heq | _];
      [contradiction |].
    run_step. rewrite Hcomp. run_step.
    rewrite Hlookup. run_step.
    destruct res as [[i st] | e]; reflexivity.
  - intros Hdot Hdotdot Hlen e Hreject.
    destruct (Z.ltb_spec NAME_MAX (Z.of_nat (String.length (name (what args)))))
      as [Hlong | _]; [lia |].
    destruct (String.eqb_spec (name (what args)) ".") as [Heq | _];
      [contradiction |].
    destruct (String.eqb_spec (name (what args)) "..") as [Heq | _];
      [contradiction |].
    run_step. rewrite Hreject. reflexivity.
Qed.

(** C3: a CREATE whose mode is EXCLUSIVE is answered NFS3ERR_NOTSUPP with
    an empty wcc_data and invokes no dispatcher operation, so never
    create. A CREATE of another mode invokes the dispatcher's create on the
    request's directory and name with the request's mode (S_IFREG | 0644,
    which is 33188, when it sets none); when that create fails with an
    error [e]: if the mode is UNCHECKED and [e] is EEXIST, the reply is
    NFS3_OK with the file handle, the object attributes and both sides of
    the wcc_data absent (and a warning is logged); in every other case the
    reply carries the status of [e] and an empty wcc_data. Conversely, a
    failed create of the dispatcher found in a run is answered in one of
    these two ways. *)
Theorem create_failure_modes (deser : Cursor) (xid : Z) (d : D)
    (args : CREATE3args) :
  let run := create dispatcher_ deser xid d in
  let dirIno := ino (dir (create_where args)) in
  let context := getNullContextWithCauseDetail "create" in
  deserialize deser = Value args ->
  (tag (how args) = EXCLUSIVE ->
     run = mk_Run (Value ()) d
       [Serialized (Xdr_reply SUCCESS xid);
        Serialized (Xdr_CREATE3res
          {| status := NFS3ERR_NOTSUPP;
             body := inr {| createfail_dir_wcc :=
                              {| before := None; after := None |} |} |})] /\
     dispatched (effects run) = []) /\
  (forall attr component e d',
     let mode := match sattr_mode attr with
                 | Some m => m
                 | None => 33188
                 end in
     v (how args) = inl attr ->
     mkPathComponent (name (create_where args)) = Value component ->
     disp_create dispatcher_ dirIno component mode context d =
       (Exception e, d') ->
     (tag (how args) = UNCHECKED -> isEexist e = true ->
        run = mk_Run (Value ()) d'
          [Serialized (Xdr_reply SUCCESS xid);
           Dispatched (CallCreate dirIno component mode context (Exception e));
           Logged (XLOG_WARN "Unchecked file creation returned EEXIST");
           Serialized (Xdr_CREATE3res
             {| status := NFS3_OK;
                body := inl {| create_obj := None;
                               create_obj_attributes := None;
                               create_dir_wcc :=
                                 {| before := None; after := None |} |} |})]) /\
     (tag (how args) = GUARDED \/
      (tag (how args) = UNCHECKED /\ isEexist e = false) ->
        run = mk_Run (Value ()) d'
          [Serialized (Xdr_reply SUCCESS xid);
           Dispatched (CallCreate dirIno component mode context (Exception e));
           Serialized (Xdr_CREATE3res
             {| status := exceptionToNfsError e;
                body := inr {| createfail_dir_wcc :=
                                 {| before := None; after := None |} |} |})])) /\
  (forall i n m ctx e,
     In (CallCreate i n m ctx (Exception e)) (dispatched (effects run)) ->
     (tag (how args) = UNCHECKED -> isEexist e = true ->
        outcome run = Value () /\
        serialized (effects run) =
          [Xdr_reply SUCCESS xid;
           Xdr_CREATE3res
             {| status := NFS3_OK;
                body := inl {| create_obj := None;
                               create_obj_attributes := None;
                               create_dir_wcc :=
                                 {| before := None; after := None |} |} |}]) /\
     (tag (how args) <> UNCHECKED \/ isEexist e = false ->
        outcome run = Value () /\
        serialized (effects run) =
          [Xdr_reply SUCCESS xid;
           Xdr_CREATE3res
             {| status := exceptionToNfsError e;
                body := inr {| createfail_dir_wcc :=
                                 {| before := None; after := None |} |} |}])).
Proof.
  intros run dirIno context Hargs. subst run dirIno context.
  unfold create. run_handler.
  rewrite Hargs. run_step. split; [| split].
  - intros ->. run_step. split; reflexivity.
  - intros attr component e d' Hv Hcomp Hcreate.
    rewrite Hv. cbn [std_get_sattr3].
    change (Z.lor S_IFREG 420) with 33188.
    destruct (tag (how args)) eqn:Htag; run_step.
    + rewrite Hcomp. run_step. rewrite Hcreate. run_step. split.
      * intros _ Heexist. rewrite Heexist. reflexivity.
      * intros [Hmode | [_ Hno]]; [discriminate Hmode |].
        rewrite Hno. reflexivity.
    + rewrite Hcomp. run_step. rewrite Hcreate. run_step. split.
      * intros Hmode. discriminate Hmode.
      * intros _. reflexivity.
    + split.
      * intros Hmode. discriminate Hmode.
      * intros [Hmode | [Hmode _]]; discriminate Hmode.
  - intros i n m ctx e Hcall.
    destruct (tag (how args)) eqn:Htag; run_step;
      [| | simpl in Hcall; contradiction].
    all: revert Hcall; unfold std_get_sattr3;
      destruct (v (how args)) as [attr | verifier]; run_step;
      [| simpl; contradiction];
      destruct (mkPathComponent (name (create_where args)))
        as [component | thrown]; run_step; [| simpl; contradiction];
      destruct (disp_create _ _ _ _ _ _) as [[createRes | e'] d'];
      run_step; [simpl; intros [Hcall | []]; discriminate Hcall |];
      simpl andb; try destruct (isEexist e') eqn:Heexist; run_step; simpl;
      (intros [Hcall | []]); inversion Hcall; subst;
      (split; [intros Hmode Hyes | intros [Hmode | Hno]]);
      try congruence; now split.
Qed.

(** C6: a WRITE whose [count] does not exceed the bytes it carries hands
    the dispatcher's write the request's file, offset and data cut to its
    first [count] bytes; when that write succeeds, the reply is NFS3_OK
    with [count] the written byte count narrowed to 32 bits, [committed]
    FILE_SYNC whatever stability was requested, [verf] 0, and a wcc_data
    whose before and after sides are present exactly when the dispatcher
    returned preStat and postStat. Conversely, a successful write of the
    dispatcher found in a run was given these arguments and is answered
    this way. *)
Theorem write_success (deser : Cursor) (xid : Z) (d : D) (args : WRITE3args) :
  let run := write dispatcher_ deser xid d in
  let context := getNullContextWithCauseDetail "write" in
  let cut := firstn (Z.to_nat (count args)) (data args) in
  deserialize deser = Value args ->
  (forall writeRes d',
     count args <= Z.of_nat (length (data args)) ->
     disp_write dispatcher_ (ino (file args)) cut (offset args) context d =
       (Value writeRes, d') ->
     exists wcc,
       run = mk_Run (Value ()) d'
         [Serialized (Xdr_reply SUCCESS xid);
          Dispatched (CallWrite (ino (file args)) cut (offset args) context
                        (Value writeRes));
          Serialized (Xdr_WRITE3res
            {| status := NFS3_OK;
               body := inl {| file_wcc := wcc;
                              write_count := written writeRes mod 2 ^ 32;
                              committed := FILE_SYNC;
                              verf := 0 |} |})] /\
       before wcc = match preStat writeRes with
                    | Some st => statToPreOpAttr st
                    | None => None
                    end /\
       after wcc = option_map statToFattr3 (postStat writeRes) /\
       (is_Some (before wcc) <-> is_Some (preStat writeRes)) /\
       (is_Some (after wcc) <-> is_Some (postStat writeRes))) /\
  (forall i buf off ctx writeRes,
     In (CallWrite i buf off ctx (Value writeRes)) (dispatched (effects run)) ->
     (i = ino (file args) /\ buf = cut /\ off = offset args) /\
     outcome run = Value () /\
     exists wcc,
       serialized (effects run) =
         [Xdr_reply SUCCESS xid;
          Xdr_WRITE3res
            {| status := NFS3_OK;
               body := inl {| file_wcc := wcc;
                              write_count := written writeRes mod 2 ^ 32;
                              committed := FILE_SYNC;
                              verf := 0 |} |}] /\
       before wcc = match preStat writeRes with
                    | Some st => statToPreOpAttr st
                    | None => None
                    end /\
       after wcc = option_map statToFattr3 (postStat writeRes) /\
       (is_Some (before wcc) <-> is_Some (preStat writeRes)) /\
       (is_Some (after wcc) <-> is_Some (postStat writeRes))).
Proof.
  intros run context cut Hargs. subst run context cut.
  assert (Hsides : forall writeRes,
    (is_Some match preStat writeRes with
             | Some st => statToPreOpAttr st
             | None => None
             end <-> is_Some (preStat writeRes)) /\
    (is_Some match postStat writeRes with
             | Some st => Some (statToFattr3 st)
             | None => None
             end <-> is_Some (postStat writeRes))).
  { intros writeRes. split.
    - destruct (preStat writeRes); unfold statToPreOpAttr;
        split; intros [x Hx]; first [discriminate Hx | now eexists].
    - destruct (postStat writeRes);
        split; intros [x Hx]; first [discriminate Hx | now eexists]. }
  unfold write. run_handler.
  rewrite Hargs. run_step. unfold IOBufQueue_split. split.
  - intros writeRes d' Hfits Hwrite.
    destruct (Z.leb_spec (count args) (Z.of_nat (length (data args))))
      as [_ | Hshort]; [| lia].
    run_step. rewrite Hwrite. run_step.
    eexists. split; [reflexivity |]. cbn [before after].
    split; [reflexivity |].
    split; [now destruct (postStat writeRes) |].
    apply Hsides.
  - intros i buf off ctx writeRes.
    destruct (count args <=? Z.of_nat (length (data args))); run_step;
      [| simpl; contradiction].
    destruct (disp_write _ _ _ _ _ _) as [[res | e] d']; run_step; simpl;
      (intros [Hcall | []]); inversion Hcall; subst.
    split; [repeat split |]. split; [reflexivity |].
    eexists. split; [reflexivity |]. cbn [before after].
    split; [reflexivity |].
    split; [now destruct (postStat writeRes) |].
    apply Hsides.
Qed.


Lemma mul64_exact (x y : Z) : 0 <= x * y < 2 ^ 64 -> mul64 x y = x * y.
Proof. intros Hrange. unfold mul64. now apply Z.mod_small. Qed.

(** C8: when statfs succeeds, the FSSTAT reply is NFS3_OK and its body
    has tbytes = f_blocks * f_bsize, fbytes = f_bfree * f_bsize,
    abytes = f_bavail * f_bavail, the products being those of 64-bit
    unsigned arithmetic (the exact products whenever these fit in 64
    bits), tfiles = f_files, ffiles = f_ffree, afiles = f_ffree and
    invarsec = 0; in particular abytes is 160000 when f_bavail is 400. *)
Theorem fsstat_success_counters (deser : Cursor) (xid : Z) (d d1 d2 : D)
    (args : FSSTAT3args) (sfs : statfs) (attr : Try stat) :
  let context := getNullContextWithCauseDetail "fsstat" in
  deserialize deser = Value args ->
  disp_statfs dispatcher_ (ino (fsroot args)) context d = (Value sfs, d1) ->
  disp_getattr dispatcher_ (ino (fsroot args)) context d1 = (attr, d2) ->
  exists ok,
    serialized (effects (fsstat dispatcher_ deser xid d)) =
      [Xdr_reply SUCCESS xid;
       Xdr_FSSTAT3res {| status := NFS3_OK; body := inl ok |}] /\
    tbytes ok = mul64 (f_blocks sfs) (f_bsize sfs) /\
    fbytes ok = mul64 (f_bfree sfs) (f_bsize sfs) /\
    abytes ok = mul64 (f_bavail sfs) (f_bavail sfs) /\
    tfiles ok = f_files sfs /\
    ffiles ok = f_ffree sfs /\
    afiles ok = f_ffree sfs /\
    invarsec ok = 0 /\
    (0 <= f_blocks sfs * f_bsize sfs < 2 ^ 64 ->
       tbytes ok = f_blocks sfs * f_bsize sfs) /\
    (0 <= f_bfree sfs * f_bsize sfs < 2 ^ 64 ->
       fbytes ok = f_bfree sfs * f_bsize sfs) /\
    (0 <= f_bavail sfs * f_bavail sfs < 2 ^ 64 ->
       abytes ok = f_bavail sfs * f_bavail sfs) /\
    (f_bavail sfs = 400 -> abytes ok = 160000).
Proof.
  intros context Hargs Hstatfs Hattr. subst context.
  unfold fsstat. run_handler. rewrite Hargs. run_step.
  rewrite Hstatfs. run_step. rewrite Hattr. run_step.
  eexists. split; [reflexivity |]. cbn [tbytes fbytes abytes tfiles ffiles
    afiles invarsec].
  repeat split; try apply mul64_exact.
  intros ->. reflexivity.
Qed.

(** C10: when statfs succeeds and the getattr of the filesystem root
    fails, the FSSTAT reply is still NFS3_OK; its obj_attributes is the
    absent variant and its counters are computed from the statfs
    result. *)
Theorem fsstat_getattr_failure (deser : Cursor) (xid : Z) (d d1 d2 : D)
    (args : FSSTAT3args) (sfs : statfs) (e : exception_wrapper) :
  let context := getNullContextWithCauseDetail "fsstat" in
  deserialize deser = Value args ->
  disp_statfs dispatcher_ (ino (fsroot args)) context d = (Value sfs, d1) ->
  disp_getattr dispatcher_ (ino (fsroot args)) context d1 = (Exception e, d2) ->
  fsstat dispatcher_ deser xid d =
    mk_Run (Value ()) d2
      [Serialized (Xdr_reply SUCCESS xid);
       Dispatched (CallStatfs (ino (fsroot args)) context (Value sfs));
       Dispatched (CallGetattr (ino (fsroot args)) context (Exception e));
       Serialized (Xdr_FSSTAT3res
         {| status := NFS3_OK;
            body := inl
              {| fsstat_obj_attributes := None;
                 tbytes := (f_blocks sfs * f_bsize sfs) mod 2 ^ 64;
                 fbytes := (f_bfree sfs * f_bsize sfs) mod 2 ^ 64;
                 abytes := (f_bavail sfs * f_bavail sfs) mod 2 ^ 64;
                 tfiles := f_files sfs;
                 ffiles := f_ffree sfs;
                 afiles := f_ffree sfs;
                 invarsec := 0 |} |})].
Proof.
  intros context Hargs Hstatfs Hattr. subst context.
  unfold fsstat. run_handler. rewrite Hargs. run_step.
  rewrite Hstatfs. run_step. rewrite Hattr. reflexivity.
Qed.



(** ** Further facts about the handlers *)

Lemma error_status_not_ok (ex : exception_wrapper) :
  exceptionToNfsError ex = NFS3_OK -> False.
Proof.
  destruct ex as [err | | what]; try discriminate.
  unfold exceptionToNfsError.
  destruct (isErrnoError err); simpl; [| discriminate].
  repeat match goal with
         | |- context [if ?b then _ else _] => destruct b
         end; discriminate.
Qed.

(** Case analysis on everything a handler's run depends on: what the
    decoder, the fallible constructors and the dispatcher answer, then any
    remaining test. *)
Ltac crack :=
  repeat (run_step;
    match goal with
    | |- context [@deserialize ?C ?A ?I ?c] =>
        destruct (@deserialize C A I c) eqn:?
    | |- context [mkPathComponent ?n] => destruct (mkPathComponent n) eqn:?
    | |- context [IOBufQueue_split ?b ?n] =>
        destruct (IOBufQueue_split b n) eqn:?
    | |- context [std_get_sattr3 ?x] => destruct (std_get_sattr3 x) eqn:?
    | |- context [disp_getattr ?s ?a ?b ?c] =>
        destruct (disp_getattr s a b c) as [[? | ?] ?] eqn:?
    | |- context [disp_getParent ?s ?a ?b ?c] =>
        destruct (disp_getParent s a b c) as [[? | ?] ?] eqn:?
    | |- context [disp_lookup ?s ?a ?b ?c ?e] =>
        destruct (disp_lookup s a b c e) as [[[? ?] | ?] ?] eqn:?
    | |- context [disp_readlink ?s ?a ?b ?c] =>
        destruct (disp_readlink s a b c) as [[? | ?] ?] eqn:?
    | |- context [disp_write ?s ?a ?b ?c ?e ?f] =>
        destruct (disp_write s a b c e f) as [[? | ?] ?] eqn:?
    | |- context [disp_create ?s ?a ?b ?c ?e ?f] =>
        destruct (disp_create s a b c e f) as [[? | ?] ?] eqn:?
    | |- context [disp_mkdir ?s ?a ?b ?c ?e ?f] =>
        destruct (disp_mkdir s a b c e f) as [[? | ?] ?] eqn:?
    | |- context [disp_statfs ?s ?a ?b ?c] =>
        destruct (disp_statfs s a b c) as [[? | ?] ?] eqn:?
    | |- context [match ?x with _ => _ end] =>
        lazymatch x with
        | context [match _ with _ => _ end] => fail
        | _ => destruct x eqn:?
        end
    end);
  run_step.

Ltac unfold_handlers :=
  unfold handlerOf, null, getattr, setattr, lookup, access, readlink, read,
    write, create, mkdir, symlink, mknod, remove, rmdir, rename, link,
    readdir, readdirplus, fsstat, fsinfo, pathconf, commit.

(** X8: the ten procedures this server does not implement (SETATTR, READ,
    SYMLINK, MKNOD, REMOVE, RMDIR, RENAME, READDIR, READDIRPLUS, COMMIT)
    are answered by the accept status PROC_UNAVAIL alone: no procedure
    result follows, the request cursor is not read (any cursor gives the
    same run) and the dispatcher is not invoked. *)
Theorem unavailable_procedures (p : nfsv3Procs) (deser : Cursor) (xid : Z)
    (d : D) :
  isUnavailable p = true ->
  dispatchRpc dispatcher_ caseSensitive_ deser xid 100003 3
    (Z.of_nat (to_underlying p)) d =
  mk_Run (Value ()) d
    [Logged (FB_LOGF_DBG7 (procName p));
     Serialized (Xdr_reply PROC_UNAVAIL xid)].
Proof.
  intros Hp. rewrite dispatchRpc_handler.
  destruct p; try discriminate Hp; reflexivity.
Qed.

(** X9: the shape of every reply to a request for program 100003, version 3
    and a valid procedure: the first thing serialized is the accept header
    with the request's xid, PROC_UNAVAIL for the ten unimplemented
    procedures and SUCCESS for every other, also when the procedure then
    fails; at most one item follows, and it is a procedure result. When an
    exception leaves the handler nothing follows the header; when the
    handler completes, a result follows exactly for the implemented
    procedures other than NULL. *)
Theorem reply_shape (p : nfsv3Procs) (deser : Cursor) (xid : Z) (d : D) :
  let run := dispatchRpc dispatcher_ caseSensitive_ deser xid 100003 3
               (Z.of_nat (to_underlying p)) d in
  exists rest,
    serialized (effects run) =
      Xdr_reply (if isUnavailable p then PROC_UNAVAIL else SUCCESS) xid
      :: rest /\
    (length rest <= 1)%nat /\
    (forall item, In item rest -> itemStatus item <> None) /\
    (forall e, outcome run = Exception e -> rest = []) /\
    (outcome run = Value () ->
     (rest = [] <-> isUnavailable p = true \/ p = proc_null)).
Proof.
  intros run. subst run. rewrite dispatchRpc_handler.
  destruct p; cbn [isUnavailable]; unfold_handlers; run_handler; crack;
    cbn [serialized];
    (eexists; split; [reflexivity |]); cbn [length];
    (split; [simpl; lia |]);
    (split; [simpl; intros item Hitem;
             repeat (destruct Hitem as [<- | Hitem]; [discriminate |]);
             contradiction |]);
    (split; [intros e' He'; first [reflexivity | discriminate He'] |]);
    intros Hout; first [discriminate Hout | idtac];
    (split; [intros Hrest; first [discriminate Hrest | tauto]
            | intros [Hp | Hp]; first [discriminate Hp | reflexivity]]).
Qed.

(** X10: the mutating operations of the dispatcher are reached only through
    their own procedure: in the run of a request for procedure [p], a
    write, create or mkdir of the dispatcher is invoked only if [p] is
    WRITE, CREATE or MKDIR respectively, and at most one such operation is
    invoked. The other nineteen procedures never modify the filesystem. *)
Theorem mutation_discipline (p : nfsv3Procs) (deser : Cursor) (xid : Z)
    (d : D) :
  let run := dispatchRpc dispatcher_ caseSensitive_ deser xid 100003 3
               (Z.of_nat (to_underlying p)) d in
  (forall c q,
     In c (dispatched (effects run)) -> mutatingProcedure c = Some q ->
     q = p) /\
  (forall c c',
     In c (dispatched (effects run)) -> In c' (dispatched (effects run)) ->
     mutatingProcedure c <> None -> mutatingProcedure c' <> None -> c = c').
Proof.
  intros run. subst run. rewrite dispatchRpc_handler.
  destruct p; unfold_handlers; run_handler; crack; cbn [dispatched];
    (split;
     [ intros c q Hc Hq; simpl in Hc;
       repeat (destruct Hc as [<- | Hc]; [simpl in Hq; congruence |]);
       contradiction
     | intros c c' Hc Hc' Hm Hm'; simpl in Hc, Hc';
       repeat (destruct Hc as [<- | Hc];
               [repeat (destruct Hc' as [<- | Hc'];
                        [first [reflexivity
                               | exfalso; apply Hm; reflexivity
                               | exfalso; apply Hm'; reflexivity] |]);
                contradiction |]);
       contradiction ]).
Qed.

(** X11: NULL, FSINFO, PATHCONF and the ten unimplemented procedures are served
    without the filesystem: whatever the cursor holds, the dispatcher is not
    invoked and its state is the one the request found. *)
Theorem static_procedures (p : nfsv3Procs) (deser : Cursor) (xid : Z) (d : D) :
  let run := dispatchRpc dispatcher_ caseSensitive_ deser xid 100003 3
               (Z.of_nat (to_underlying p)) d in
  isStatic p = true ->
  dispatched (effects run) = [] /\ dstate run = d.
Proof.
  intros run Hp. subst run. rewrite dispatchRpc_handler.
  destruct p; try discriminate Hp; unfold_handlers; run_handler; crack;
    split; reflexivity.
Qed.

(** X12: GETATTR invokes the dispatcher's getattr once, on the inode of the
    request. Its status is NFS3_OK exactly when that getattr succeeded: it
    then carries the converted attributes; otherwise it carries the status
    of the error and a void body. *)
Theorem getattr_reply (deser : Cursor) (xid : Z) (d d' : D)
    (args : GETATTR3args) (r : Try stat) :
  let context := getNullContextWithCauseDetail "getattr" in
  deserialize deser = Value args ->
  disp_getattr dispatcher_ (ino (getattr_object args)) context d = (r, d') ->
  exists res,
    getattr dispatcher_ deser xid d =
      mk_Run (Value ()) d'
        [Serialized (Xdr_reply SUCCESS xid);
         Dispatched (CallGetattr (ino (getattr_object args)) context r);
         Serialized (Xdr_GETATTR3res res)] /\
    (status res = NFS3_OK <-> exists st, r = Value st) /\
    (forall st, r = Value st ->
       res = {| status := NFS3_OK;
                body := inl {| obj_attributes := statToFattr3 st |} |}) /\
    (forall e, r = Exception e ->
       res = {| status := exceptionToNfsError e; body := inr () |}).
Proof.
  intros context Hargs Hattr. subst context.
  unfold getattr. run_handler. rewrite Hargs. run_step.
  rewrite Hattr. run_step.
  destruct r as [st | e]; (eexists; split; [reflexivity |]); cbn [status].
  - split; [split; [now exists st | reflexivity] |].
    split; [now intros st' [= <-] | discriminate].
  - split; [split; [intros Hok; now apply error_status_not_ok in Hok
                   | intros [st Hst]; discriminate Hst] |].
    split; [discriminate | now intros e' [= <-]].
Qed.

(** X13: ACCESS grants exactly the mask the request asks for: whatever
    attributes getattr returns for the object (its mode and owner are not
    consulted), the reply is NFS3_OK with [access] equal to the requested
    mask; when getattr fails the reply carries the status of the error and
    no attributes. *)
Theorem access_echoes_mask (deser : Cursor) (xid : Z) (d d' : D)
    (args : ACCESS3args) (r : Try stat) :
  let context := getNullContextWithCauseDetail "access" in
  deserialize deser = Value args ->
  disp_getattr dispatcher_ (ino (access_object args)) context d = (r, d') ->
  serialized (effects (access dispatcher_ deser xid d)) =
    [Xdr_reply SUCCESS xid;
     Xdr_ACCESS3res
       match r with
       | Value st =>
           {| status := NFS3_OK;
              body := inl {| access_obj_attributes := Some (statToFattr3 st);
                             effective_access := access_mask args |} |}
       | Exception e =>
           {| status := exceptionToNfsError e;
              body := inr {| accessfail_obj_attributes := None |} |}
       end] /\
  dispatched (effects (access dispatcher_ deser xid d)) =
    [CallGetattr (ino (access_object args)) context r].
Proof.
  intros context Hargs Hattr. subst context.
  unfold access. run_handler. rewrite Hargs. run_step.
  rewrite Hattr. run_step.
  destruct r; split; reflexivity.
Qed.

(** X14: READLINK asks the dispatcher for the attributes of the link first and
    for its target second. The status depends on the readlink alone: it is
    NFS3_OK with the target exactly when readlink succeeded, the status of
    its error otherwise. The attributes in either body are the outcome of
    the getattr, absent when it failed, and a failed getattr does not fail
    the reply. *)
Theorem readlink_reply (deser : Cursor) (xid : Z) (d d1 d2 : D)
    (args : READLINK3args) (attr : Try stat) (r : Try string) :
  let context := getNullContextWithCauseDetail "readlink" in
  let i := ino (symlink_fh args) in
  deserialize deser = Value args ->
  disp_getattr dispatcher_ i context d = (attr, d1) ->
  disp_readlink dispatcher_ i context d1 = (r, d2) ->
  exists res,
    readlink dispatcher_ deser xid d =
      mk_Run (Value ()) d2
        [Serialized (Xdr_reply SUCCESS xid);
         Dispatched (CallGetattr i context attr);
         Dispatched (CallReadlink i context r);
         Serialized (Xdr_READLINK3res res)] /\
    (status res = NFS3_OK <-> exists target, r = Value target) /\
    (forall target, r = Value target ->
       res = {| status := NFS3_OK;
                body := inl {| symlink_attributes := statToPostOpAttr attr;
                               readlink_data := target |} |}) /\
    (forall e, r = Exception e ->
       res = {| status := exceptionToNfsError e;
                body := inr {| readlinkfail_symlink_attributes :=
                                 statToPostOpAttr attr |} |}).
Proof.
  intros context i Hargs Hattr Hlink. subst context i.
  unfold readlink. run_handler. rewrite Hargs. run_step.
  rewrite Hattr. run_step. rewrite Hlink. run_step.
  destruct r as [target | e]; (eexists; split; [reflexivity |]); cbn [status].
  - split; [split; [now exists target | reflexivity] |].
    split; [now intros t' [= <-] | discriminate].
  - split; [split; [intros Hok; now apply error_status_not_ok in Hok
                   | intros [t Ht]; discriminate Ht] |].
    split; [discriminate | now intros e' [= <-]].
Qed.

(** X15: LINK never creates a link: whatever the dispatcher answers, the status
    is NFS3ERR_NOTSUPP with an empty wcc_data; the only dispatcher
    operation invoked is one getattr of the source file, whose outcome
    fills the file attributes (absent when it failed). *)
Theorem link_always_notsupp (deser : Cursor) (xid : Z) (d : D)
    (args : LINK3args) :
  let context := getNullContextWithCauseDetail "link" in
  let run := link dispatcher_ deser xid d in
  let answer := disp_getattr dispatcher_ (ino (link_file args)) context d in
  deserialize deser = Value args ->
  outcome run = Value () /\
  dstate run = snd answer /\
  serialized (effects run) =
    [Xdr_reply SUCCESS xid;
     Xdr_LINK3res
       {| status := NFS3ERR_NOTSUPP;
          body := inr {| linkfail_file_attributes :=
                           statToPostOpAttr (fst answer);
                         linkfail_linkdir_wcc :=
                           {| before := None; after := None |} |} |}] /\
  dispatched (effects run) =
    [CallGetattr (ino (link_file args)) context (fst answer)].
Proof.
  intros context run answer Hargs. subst context run answer.
  unfold link. run_handler. rewrite Hargs. run_step.
  destruct (disp_getattr _ _ _ _) as [r d']. run_step.
  repeat split.
Qed.

(** X16: WRITE never hands the dispatcher more than the request announces: any
    write the dispatcher receives carries exactly [count] bytes, and
    [count] does not exceed the bytes the request carries. When that write
    fails, the reply carries the status of its error with an empty
    wcc_data, and never NFS3_OK. *)
Theorem write_buffer_bound (deser : Cursor) (xid : Z) (d : D)
    (args : WRITE3args) (i : InodeNumber) (buf : list Byte.byte) (off : Z)
    (ctx : ObjectFetchContext) (r : Try WriteRes) :
  let run := write dispatcher_ deser xid d in
  deserialize deser = Value args ->
  0 <= count args ->
  In (CallWrite i buf off ctx r) (dispatched (effects run)) ->
  Z.of_nat (length buf) = count args /\
  count args <= Z.of_nat (length (data args)) /\
  (forall e, r = Exception e ->
     exceptionToNfsError e <> NFS3_OK /\
     serialized (effects run) =
       [Xdr_reply SUCCESS xid;
        Xdr_WRITE3res
          {| status := exceptionToNfsError e;
             body := inr {| writefail_file_wcc :=
                              {| before := None; after := None |} |} |}]).
Proof.
  intros run Hargs Hcount. subst run. unfold write. run_handler.
  rewrite Hargs. run_step. unfold IOBufQueue_split.
  destruct (Z.leb_spec (count args) (Z.of_nat (length (data args))))
    as [Hfits | Hshort]; run_step; [| simpl; contradiction].
  destruct (disp_write _ _ _ _ _ _) as [[res | e] d']; run_step; simpl;
    (intros [Hcall | []]); inversion Hcall; subst;
    (split; [rewrite length_take; lia |]); (split; [exact Hfits |]).
  - discriminate.
  - intros e' [= <-]. split; [| reflexivity].
    intros Hok. now apply error_status_not_ok in Hok.
Qed.

(** X17: A WRITE whose [count] exceeds the bytes it carries is not performed:
    the underflow of the split leaves the handler as an exception after the
    accept header, the dispatcher is not invoked, and no result is
    serialized. *)
Theorem write_underflow (deser : Cursor) (xid : Z) (d : D) (args : WRITE3args) :
  deserialize deser = Value args ->
  Z.of_nat (length (data args)) < count args ->
  write dispatcher_ deser xid d =
    mk_Run (Exception (other_exception "std::underflow_error")) d
      [Serialized (Xdr_reply SUCCESS xid)].
Proof.
  intros Hargs Hshort. unfold write. run_handler.
  rewrite Hargs. run_step. unfold IOBufQueue_split.
  destruct (Z.leb_spec (count args) (Z.of_nat (length (data args))))
    as [Hfits | _]; [lia | reflexivity].
Qed.

(** X18: whenever CREATE invokes the dispatcher's create, the mode is not
    EXCLUSIVE, the directory is the request's, the name is the request's
    as the PathComponent constructor returned it, and the file mode is the
    one the request sets or, when it sets none, S_IFREG | 0644 (33188).
    When that create succeeds the reply is NFS3_OK with the new file's
    handle and attributes present and the wcc_data sides present exactly
    when the dispatcher returned the directory's pre and post stat. *)
Theorem create_call_and_success (deser : Cursor) (xid : Z) (d : D)
    (args : CREATE3args) (i : InodeNumber) (n : PathComponent) (m : Z)
    (ctx : ObjectFetchContext) (r : Try CreateRes) :
  let run := create dispatcher_ deser xid d in
  deserialize deser = Value args ->
  In (CallCreate i n m ctx r) (dispatched (effects run)) ->
  tag (how args) <> EXCLUSIVE /\
  i = ino (dir (create_where args)) /\
  mkPathComponent (name (create_where args)) = Value n /\
  (exists attr, v (how args) = inl attr /\
                m = match sattr_mode attr with Some m' => m' | None => 33188 end) /\
  (forall res, r = Value res ->
     outcome run = Value () /\
     serialized (effects run) =
       [Xdr_reply SUCCESS xid;
        Xdr_CREATE3res
          {| status := NFS3_OK;
             body := inl
               {| create_obj := Some {| ino := create_ino res |};
                  create_obj_attributes :=
                    Some (statToFattr3 (create_stat res));
                  create_dir_wcc :=
                    {| before := match create_preDirStat res with
                                 | Some st => statToPreOpAttr st
                                 | None => None
                                 end;
                       after := option_map statToFattr3
                                  (create_postDirStat res) |} |} |}]).
Proof.
  intros run Hargs. subst run. unfold create. run_handler.
  rewrite Hargs. run_step.
  destruct (tag (how args)) eqn:Htag; run_step;
    [| | simpl; contradiction].
  all: unfold std_get_sattr3;
    destruct (v (how args)) as [attr | verifier]; run_step;
    [| simpl; contradiction];
    destruct (mkPathComponent (name (create_where args)))
      as [component | thrown]; run_step; [| simpl; contradiction];
    destruct (disp_create _ _ _ _ _ _) as [[createRes | e'] d'];
    run_step; try destruct (isEexist e') eqn:Heexist; run_step; simpl;
    (intros [Hcall | []]); inversion Hcall; subst;
    (split; [discriminate |]); (split; [reflexivity |]);
    (split; [reflexivity |]);
    (split; [exists attr; split; [reflexivity |];
             now destruct (sattr_mode attr) |]);
    intros res Hres; try discriminate Hres;
    injection Hres as <-; split; [reflexivity |];
    now destruct (create_postDirStat createRes).
Qed.

(** X19: MKDIR of a name other than "." and ".." that the PathComponent
    constructor accepts invokes the dispatcher's mkdir once, on the
    request's directory and name, with the mode the request sets
    (S_IFDIR | 0751, which is 16873, when it sets none), and reports its
    outcome as it is: the status is NFS3_OK exactly when that mkdir
    succeeded, with the new directory's handle and attributes; when it
    failed, the status is that of the error with an empty wcc_data, so an
    existing directory is reported as NFS3ERR_EXIST and not masked as
    CREATE masks it. *)
Theorem mkdir_reply (deser : Cursor) (xid : Z) (d d' : D) (args : MKDIR3args)
    (component : PathComponent) (r : Try MkdirRes) :
  let run := mkdir dispatcher_ deser xid d in
  let dirIno := ino (dir (mkdir_where args)) in
  let context := getNullContextWithCauseDetail "mkdir" in
  let mode := match sattr_mode (attributes args) with
              | Some m => m
              | None => 16873
              end in
  deserialize deser = Value args ->
  name (mkdir_where args) <> "." -> name (mkdir_where args) <> ".." ->
  mkPathComponent (name (mkdir_where args)) = Value component ->
  disp_mkdir dispatcher_ dirIno component mode context d = (r, d') ->
  exists res,
    run = mk_Run (Value ()) d'
      [Serialized (Xdr_reply SUCCESS xid);
       Dispatched (CallMkdir dirIno component mode context r);
       Serialized (Xdr_MKDIR3res res)] /\
    (status res = NFS3_OK <-> exists mkdirRes, r = Value mkdirRes) /\
    (forall e, r = Exception e ->
       res = {| status := exceptionToNfsError e;
                body := inr {| mkdirfail_dir_wcc :=
                                 {| before := None; after := None |} |} |} /\
       (isEexist e = true -> status res = NFS3ERR_EXIST)) /\
    (forall mkdirRes, r = Value mkdirRes ->
       res = {| status := NFS3_OK;
                body := inl
                  {| mkdir_obj := Some {| ino := mkdir_ino mkdirRes |};
                     mkdir_obj_attributes :=
                       Some (statToFattr3 (mkdir_stat mkdirRes));
                     mkdir_dir_wcc :=
                       {| before := match mkdir_preDirStat mkdirRes with
                                    | Some st => statToPreOpAttr st
                                    | None => None
                                    end;
                          after := option_map statToFattr3
                                     (mkdir_postDirStat mkdirRes) |} |} |}).
Proof.
  intros run dirIno context mode Hargs Hdot Hdotdot Hcomp Hmkdir.
  subst run dirIno context mode.
  unfold mkdir. run_handler. rewrite Hargs. run_step.
  destruct (String.eqb_spec (name (mkdir_where args)) ".") as [Heq | _];
    [contradiction |].
  destruct (String.eqb_spec (name (mkdir_where args)) "..") as [Heq | _];
    [contradiction |].
  run_step. rewrite Hcomp. run_step.
  change (Z.lor S_IFDIR 489) with 16873.
  rewrite Hmkdir. run_step.
  destruct r as [mkdirRes | e]; (eexists; split; [reflexivity |]);
    cbn [status].
  - split; [split; [now exists mkdirRes | reflexivity] |].
    split; [discriminate |].
    intros res [= <-]. now destruct (mkdir_postDirStat mkdirRes).
  - split; [split; [intros Hok; now apply error_status_not_ok in Hok
                   | intros [res Hres]; discriminate Hres] |].
    split; [| discriminate].
    intros e' [= <-]. split; [reflexivity |]. cbn [status].
    destruct e as [err | | what]; try discriminate.
    unfold isEexist, exceptionToNfsError.
    destruct (isErrnoError err); [| discriminate]. simpl.
    intros Hval. apply Z.eqb_eq in Hval. now rewrite Hval.
Qed.

(** X20: when statfs fails, FSSTAT still asks for the attributes of the root
    afterwards; the reply carries the status of the statfs error, never
    NFS3_OK, and the failure body holds the outcome of that getattr. *)
Theorem fsstat_statfs_failure (deser : Cursor) (xid : Z) (d d1 d2 : D)
    (args : FSSTAT3args) (e : exception_wrapper) (attr : Try stat) :
  let context := getNullContextWithCauseDetail "fsstat" in
  deserialize deser = Value args ->
  disp_statfs dispatcher_ (ino (fsroot args)) context d = (Exception e, d1) ->
  disp_getattr dispatcher_ (ino (fsroot args)) context d1 = (attr, d2) ->
  exceptionToNfsError e <> NFS3_OK /\
  fsstat dispatcher_ deser xid d =
    mk_Run (Value ()) d2
      [Serialized (Xdr_reply SUCCESS xid);
       Dispatched (CallStatfs (ino (fsroot args)) context (Exception e));
       Dispatched (CallGetattr (ino (fsroot args)) context attr);
       Serialized (Xdr_FSSTAT3res
         {| status := exceptionToNfsError e;
            body := inr {| fsstatfail_obj_attributes :=
                             match attr with
                             | Value st => Some (statToFattr3 st)
                             | Exception _ => None
                             end |} |})].
Proof.
  intros context Hargs Hstatfs Hattr. subst context.
  split; [intros Hok; now apply error_status_not_ok in Hok |].
  unfold fsstat. run_handler. rewrite Hargs. run_step.
  rewrite Hstatfs. run_step. rewrite Hattr. run_step.
  now destruct attr.
Qed.

(** X21: A LOOKUP whose resolution fails answers with the status of the error
    that stopped it, never NFS3_OK, and with the directory attributes
    sampled first. For ".", that is the error of the second getattr of the
    directory. For "..", when getParent fails it is the error of getParent
    and the getattr of the parent is not invoked; when getParent succeeds
    and the getattr of the parent fails it is the error of that getattr. *)
Theorem lookup_resolution_failure (deser : Cursor) (xid : Z) (d d1 : D)
    (args : LOOKUP3args) (dirAttr : Try stat) (e : exception_wrapper) :
  let dirIno := ino (dir (what args)) in
  let context := getNullContextWithCauseDetail "lookup" in
  let run := lookup dispatcher_ deser xid d in
  let failure :=
    Serialized (Xdr_LOOKUP3res
      {| status := exceptionToNfsError e;
         body := inr {| lookupfail_dir_attributes :=
                          statToPostOpAttr dirAttr |} |}) in
  deserialize deser = Value args ->
  disp_getattr dispatcher_ dirIno context d = (dirAttr, d1) ->
  exceptionToNfsError e <> NFS3_OK /\
  (name (what args) = "." ->
   forall d2,
     disp_getattr dispatcher_ dirIno context d1 = (Exception e, d2) ->
     run = mk_Run (Value ()) d2
       [Serialized (Xdr_reply SUCCESS xid);
        Dispatched (CallGetattr dirIno context dirAttr);
        Dispatched (CallGetattr dirIno context (Exception e));
        failure]) /\
  (name (what args) = ".." ->
   forall d2,
     disp_getParent dispatcher_ dirIno context d1 = (Exception e, d2) ->
     run = mk_Run (Value ()) d2
       [Serialized (Xdr_reply SUCCESS xid);
        Dispatched (CallGetattr dirIno context dirAttr);
        Dispatched (CallGetParent dirIno context (Exception e));
        failure]) /\
  (name (what args) = ".." ->
   forall parent d2 d3,
     disp_getParent dispatcher_ dirIno context d1 = (Value parent, d2) ->
     disp_getattr dispatcher_ parent context d2 = (Exception e, d3) ->
     run = mk_Run (Value ()) d3
       [Serialized (Xdr_reply SUCCESS xid);
        Dispatched (CallGetattr dirIno context dirAttr);
        Dispatched (CallGetParent dirIno context (Value parent));
        Dispatched (CallGetattr parent context (Exception e));
        failure]).
Proof.
  intros dirIno context run failure Hargs Hattr.
  subst dirIno context run failure.
  split; [intros Hok; now apply error_status_not_ok in Hok |].
  unfold lookup. run_handler.
  rewrite Hargs. run_step. rewrite Hattr. run_step.
  split; [| split].
  - intros Hname d2 Hself. rewrite Hname. cbn [String.length].
    change (NAME_MAX <? Z.of_nat 1) with false.
    change ("." =? ".")%string with true. run_step.
    rewrite Hself. reflexivity.
  - intros Hname d2 Hparent. rewrite Hname. cbn [String.length].
    change (NAME_MAX <? Z.of_nat 2) with false.
    change (".." =? ".")%string with false.
    change (".." =? "..")%string with true. run_step.
    rewrite Hparent. reflexivity.
  - intros Hname parent d2 d3 Hparent Hpattr. rewrite Hname.
    cbn [String.length].
    change (NAME_MAX <? Z.of_nat 2) with false.
    change (".." =? ".")%string with false.
    change (".." =? "..")%string with true. run_step.
    rewrite Hparent. run_step. rewrite Hpattr. reflexivity.
Qed.

(** X22: A name the PathComponent constructor rejects is handled differently by
    LOOKUP and by CREATE and MKDIR. In LOOKUP the constructor runs inside
    the future: the exception is caught, the handler completes, the reply
    carries the status the error map gives the exception with the
    directory attributes, and the dispatcher's lookup is not invoked. In
    CREATE (mode other than EXCLUSIVE) and MKDIR (name other than "." and
    "..") the constructor runs in the handler itself: the exception leaves
    the handler after the accept header, no result is serialized and the
    dispatcher is not invoked. *)
Theorem rejected_path_component (deser : Cursor) (xid : Z) (d : D)
    (n : string) (e : exception_wrapper) :
  mkPathComponent n = Exception e ->
  n <> "." -> n <> ".." ->
  (forall args dirAttr d1,
     deserialize deser = Value args -> name (what args) = n ->
     Z.of_nat (String.length n) <= NAME_MAX ->
     disp_getattr dispatcher_ (ino (dir (what args)))
       (getNullContextWithCauseDetail "lookup") d = (dirAttr, d1) ->
     lookup dispatcher_ deser xid d =
       mk_Run (Value ()) d1
         [Serialized (Xdr_reply SUCCESS xid);
          Dispatched (CallGetattr (ino (dir (what args)))
                        (getNullContextWithCauseDetail "lookup") dirAttr);
          Serialized (Xdr_LOOKUP3res
            {| status := exceptionToNfsError e;
               body := inr {| lookupfail_dir_attributes :=
                                statToPostOpAttr dirAttr |} |})]) /\
  (forall args attr,
     deserialize deser = Value args -> name (create_where args) = n ->
     tag (how args) <> EXCLUSIVE -> v (how args) = inl attr ->
     create dispatcher_ deser xid d =
       mk_Run (Exception e) d [Serialized (Xdr_reply SUCCESS xid)]) /\
  (forall args,
     deserialize deser = Value args -> name (mkdir_where args) = n ->
     mkdir dispatcher_ deser xid d =
       mk_Run (Exception e) d [Serialized (Xdr_reply SUCCESS xid)]).
Proof.
  intros Hreject Hdot Hdotdot. split; [| split].
  - intros args dirAttr d1 Hargs Hname Hlen Hattr.
    unfold lookup. run_handler. rewrite Hargs. run_step.
    rewrite Hattr. run_step. rewrite Hname.
    destruct (Z.ltb_spec NAME_MAX (Z.of_nat (String.length n)))
      as [Hlong | _]; [lia |].
    destruct (String.eqb_spec n ".") as [Heq | _]; [contradiction |].
    destruct (String.eqb_spec n "..") as [Heq | _]; [contradiction |].
    run_step. rewrite Hreject. reflexivity.
  - intros args attr Hargs Hname Htag Hv.
    unfold create. run_handler. rewrite Hargs. run_step.
    destruct (tag (how args)); [| | contradiction];
      rewrite Hv; cbn [std_get_sattr3]; run_step;
      rewrite Hname, Hreject; reflexivity.
  - intros args Hargs Hname.
    unfold mkdir. run_handler. rewrite Hargs. run_step. rewrite Hname.
    destruct (String.eqb_spec n ".") as [Heq | _]; [contradiction |].
    destruct (String.eqb_spec n "..") as [Heq | _]; [contradiction |].
    run_step. rewrite Hreject. reflexivity.
Qed.


(** X24: FSINFO and PATHCONF answer from constants: once the arguments decode,
    the reply does not depend on them (any file handle is accepted) nor on
    the filesystem. FSINFO reports no attributes, 1048576 for every
    transfer size, multiples of 1, a maximal file size of 2^64 - 1 and a
    time granularity of one nanosecond. PATHCONF reports no attributes, no
    link limit, names of at most 255 bytes that are not truncated, and is
    case insensitive exactly when the server was not configured case
    sensitive. *)
Theorem static_replies (deser : Cursor) (xid : Z) (d : D) :
  (forall args : FSINFO3args,
     deserialize deser = Value args ->
     fsinfo deser xid d =
       mk_Run (Value ()) d
         [Serialized (Xdr_reply SUCCESS xid);
          Serialized (Xdr_FSINFO3res
            {| status := NFS3_OK;
               body := inl
                 {| fsinfo_obj_attributes := None;
                    rtmax := 1048576; rtpref := 1048576; rtmult := 1;
                    wtmax := 1048576; wtpref := 1048576; wtmult := 1;
                    dtpref := 1048576;
                    maxfilesize := 18446744073709551615;
                    time_delta := {| seconds := 0; nseconds := 1 |};
                    properties :=
                      Z.lor (Z.lor FSF3_SYMLINK FSF3_HOMOGENEOUS)
                        FSF3_CANSETTIME |} |})]) /\
  (forall args : PATHCONF3args,
     deserialize deser = Value args ->
     pathconf caseSensitive_ deser xid d =
       mk_Run (Value ()) d
         [Serialized (Xdr_reply SUCCESS xid);
          Serialized (Xdr_PATHCONF3res
            {| status := NFS3_OK;
               body := inl
                 {| pathconf_obj_attributes := None;
                    linkmax := 0;
                    name_max := 255;
                    no_trunc := true;
                    chown_restricted := true;
                    case_insensitive := negb caseSensitive_;
                    case_preserving := true |} |})]).
Proof.
  split; intros args Hargs.
  - unfold fsinfo. run_handler. rewrite Hargs. reflexivity.
  - unfold pathconf. run_handler. rewrite Hargs. reflexivity.
Qed.

End ProcessorFacts.

(** * The properties on the concrete server *)

#[local] Existing Instance Scenario.systemError.
#[local] Existing Instance Scenario.pathFuncs.
#[local] Existing Instance Scenario.rpcConstants.
#[local] Existing Instance Scenario.xdr_GETATTR3args.
#[local] Existing Instance Scenario.xdr_LOOKUP3args.
#[local] Existing Instance Scenario.xdr_ACCESS3args.
#[local] Existing Instance Scenario.xdr_READLINK3args.
#[local] Existing Instance Scenario.xdr_WRITE3args.
#[local] Existing Instance Scenario.xdr_CREATE3args.
#[local] Existing Instance Scenario.xdr_MKDIR3args.
#[local] Existing Instance Scenario.xdr_LINK3args.
#[local] Existing Instance Scenario.xdr_FSSTAT3args.
#[local] Existing Instance Scenario.xdr_FSINFO3args.
#[local] Existing Instance Scenario.xdr_PATHCONF3args.

(** Dispatch with a foreign program, a wrong version, procedure 99 (scenario
    5 of section 8) and procedure 0. *)
Lemma dispatchRpc_routing_witness :
  let run prog progVer proc :=
    Nfsd3ServerProcessor.dispatchRpc Scenario.dispatcher Scenario.caseSensitive
      Scenario.Truncated 7 prog progVer proc 0%nat in
  run 100005 3 0 =
    mk_Run (Value ()) 0%nat [Serialized (Xdr_reply PROG_UNAVAIL 7)] /\
  run 100003 4 0 =
    mk_Run (Value ()) 0%nat
      [Serialized (Xdr_reply PROG_MISMATCH 7);
       Serialized (Xdr_mismatch_info {| low := 3; high := 3 |})] /\
  run 100003 3 99 =
    mk_Run (Value ()) 0%nat
      [Logged (XLOG_ERR "Invalid procedure: " 99);
       Serialized (Xdr_reply PROC_UNAVAIL 7)] /\
  exists p, 0 = Z.of_nat (to_underlying p) /\
    run 100003 3 0 =
      (log (FB_LOGF_DBG7 (procName p));;
       Nfsd3ServerProcessor.handlerOf Scenario.dispatcher
         Scenario.caseSensitive p Scenario.Truncated 7) 0%nat.
Proof.
  intros run. subst run. cbv beta.
  split; [| split; [| split]].
  - apply (dispatchRpc_routing Scenario.dispatcher Scenario.caseSensitive
             Scenario.Truncated 7 100005 3 0 0%nat). lia.
  - apply (dispatchRpc_routing Scenario.dispatcher Scenario.caseSensitive
             Scenario.Truncated 7 100003 4 0 0%nat); [reflexivity | lia].
  - apply (dispatchRpc_routing Scenario.dispatcher Scenario.caseSensitive
             Scenario.Truncated 7 100003 3 99 0%nat); [reflexivity .. | lia].
  - apply (dispatchRpc_routing Scenario.dispatcher Scenario.caseSensitive
             Scenario.Truncated 7 100003 3 0 0%nat); [reflexivity .. | lia].
Defined.

(** ETIMEDOUT maps to JUKEBOX through its row; errno 9999 is in no row; a
    system error of a foreign category carries no errno. *)
Lemma exceptionToNfsError_follows_table_witness :
  exceptionToNfsError (Scenario.errnoError ETIMEDOUT) = NFS3ERR_JUKEBOX /\
  exceptionToNfsError (Scenario.errnoError 9999) = NFS3ERR_SERVERFAULT /\
  exceptionToNfsError
    (std_system_error {| category := other_category "zlib"; value := EPERM |}) =
    NFS3ERR_SERVERFAULT.
Proof.
  destruct (exceptionToNfsError_follows_table (H := Scenario.systemError))
    as (Hrow & Hmiss & Hother & _).
  split; [| split].
  - apply (Hrow {| category := generic_category; value := ETIMEDOUT |}
             ([ETIMEDOUT; EAGAIN; ENOMEM], NFS3ERR_JUKEBOX)).
    + reflexivity.
    + apply list_elem_of_In. simpl. tauto.
    + apply list_elem_of_In. simpl. tauto.
  - apply (Hmiss {| category := generic_category; value := 9999 |}).
    + reflexivity.
    + intros row Hrow' Hin.
      apply list_elem_of_In in Hrow'. apply list_elem_of_In in Hin.
      simpl in Hrow'.
      repeat (destruct Hrow' as [<- | Hrow']; [simpl in Hin; vm_compute in Hin;
        intuition discriminate |]).
      exact Hrow'.
  - apply (Hother {| category := other_category "zlib"; value := EPERM |}).
    reflexivity.
Defined.

(** CREATE of the existing "hello.txt": EXCLUSIVE is refused without the
    dispatcher; UNCHECKED pretends success with nothing filled in (scenario
    4 of section 8); GUARDED reports NFS3ERR_EXIST. *)
Lemma create_failure_modes_witness :
  let run m x :=
    Nfsd3ServerProcessor.create Scenario.dispatcher
      (createRequest "hello.txt" m x) 7 0%nat in
  dispatched (effects (run EXCLUSIVE (inr 0))) = [] /\
  serialized (effects (run UNCHECKED (inl noAttributes))) =
    [Xdr_reply SUCCESS 7;
     Xdr_CREATE3res
       {| status := NFS3_OK;
          body := inl {| create_obj := None;
                         create_obj_attributes := None;
                         create_dir_wcc :=
                           {| before := None; after := None |} |} |}] /\
  serialized (effects (run GUARDED (inl noAttributes))) =
    [Xdr_reply SUCCESS 7;
     Xdr_CREATE3res
       {| status := NFS3ERR_EXIST;
          body := inr {| createfail_dir_wcc :=
                           {| before := None; after := None |} |} |}] /\
  outcome (run GUARDED (inl noAttributes)) = Value ().
Proof.
  intros run. subst run. cbv beta.
  pose proof (create_failure_modes Scenario.dispatcher
                (createRequest "hello.txt" EXCLUSIVE (inr 0)) 7 0%nat
                (createArgs "hello.txt" EXCLUSIVE (inr 0))) as Hexclusive.
  pose proof (create_failure_modes Scenario.dispatcher
                (createRequest "hello.txt" UNCHECKED (inl noAttributes)) 7 0%nat
                (createArgs "hello.txt" UNCHECKED (inl noAttributes)))
    as Hunchecked.
  pose proof (create_failure_modes Scenario.dispatcher
                (createRequest "hello.txt" GUARDED (inl noAttributes)) 7 0%nat
                (createArgs "hello.txt" GUARDED (inl noAttributes)))
    as Hguarded.
  cbv zeta in Hexclusive, Hunchecked, Hguarded.
  destruct (Hexclusive eq_refl) as (Hnotsupp & _ & _).
  destruct (Hunchecked eq_refl) as (_ & Hmasked & _).
  destruct (Hguarded eq_refl) as (_ & Hreported & Hfound).
  split; [| split; [| split]].
  - apply Hnotsupp. reflexivity.
  - rewrite (proj1 (Hmasked noAttributes {| stringPiece := "hello.txt" |}
                      (Scenario.errnoError EEXIST) 1%nat
                      eq_refl eq_refl eq_refl) eq_refl eq_refl).
    reflexivity.
  - rewrite (proj2 (Hreported noAttributes {| stringPiece := "hello.txt" |}
                      (Scenario.errnoError EEXIST) 1%nat
                      eq_refl eq_refl eq_refl) (or_introl eq_refl)).
    reflexivity.
  - apply (proj2 (Hfound 42 {| stringPiece := "hello.txt" |} 33188
                    (getNullContextWithCauseDetail "create")
                    (Scenario.errnoError EEXIST)
                    ltac:(simpl; left; reflexivity))).
    left. discriminate.
Defined.

(** LOOKUP in directory 42 of "." (scenario 2 of section 8), of ".." and of
    "hello.txt". *)
Lemma lookup_resolution_witness :
  let reply n :=
    serialized (effects (Nfsd3ServerProcessor.lookup Scenario.dispatcher
                           (lookupRequest 42 n) 7 0%nat)) in
  let ok i st :=
    [Xdr_reply SUCCESS 7;
     Xdr_LOOKUP3res
       {| status := NFS3_OK;
          body := inl {| lookup_object := {| ino := i |};
                         lookup_obj_attributes := Some (statToFattr3 st);
                         lookup_dir_attributes :=
                           Some (statToFattr3 Scenario.dirStat) |} |}] in
  reply "." = ok 42 Scenario.dirStat /\
  reply ".." = ok 1 Scenario.rootStat /\
  reply "hello.txt" = ok 43 Scenario.fileStat /\
  reply "" =
    [Xdr_reply SUCCESS 7;
     Xdr_LOOKUP3res
       {| status := NFS3ERR_SERVERFAULT;
          body := inr {| lookupfail_dir_attributes :=
                           Some (statToFattr3 Scenario.dirStat) |} |}].
Proof.
  intros reply ok. subst reply ok. cbv beta.
  pose proof (lookup_resolution Scenario.dispatcher (lookupRequest 42 ".") 7
                0%nat 1%nat (lookupArgs 42 ".") (Value Scenario.dirStat))
    as Hdot.
  pose proof (lookup_resolution Scenario.dispatcher (lookupRequest 42 "..") 7
                0%nat 1%nat (lookupArgs 42 "..") (Value Scenario.dirStat))
    as Hdotdot.
  pose proof (lookup_resolution Scenario.dispatcher
                (lookupRequest 42 "hello.txt") 7 0%nat 1%nat
                (lookupArgs 42 "hello.txt") (Value Scenario.dirStat))
    as Hname.
  pose proof (lookup_resolution Scenario.dispatcher (lookupRequest 42 "") 7
                0%nat 1%nat (lookupArgs 42 "") (Value Scenario.dirStat))
    as Hempty.
  cbv zeta in Hdot, Hdotdot, Hname, Hempty.
  destruct (Hdot eq_refl eq_refl) as (Hself & _).
  destruct (Hdotdot eq_refl eq_refl) as (_ & Hparent & _).
  destruct (Hname eq_refl eq_refl) as (_ & _ & Hchild & _).
  destruct (Hempty eq_refl eq_refl) as (_ & _ & _ & Hrejected).
  split; [| split; [| split]].
  - rewrite (Hself eq_refl Scenario.dirStat 2%nat eq_refl).
    reflexivity.
  - rewrite (Hparent eq_refl 1 Scenario.rootStat 2%nat 3%nat eq_refl eq_refl).
    reflexivity.
  - rewrite (Hchild ltac:(discriminate) ltac:(discriminate)
               ltac:(vm_compute; discriminate)
               {| stringPiece := "hello.txt" |}
               (Value (43, Scenario.fileStat)) 2%nat eq_refl eq_refl).
    reflexivity.
  - rewrite (Hrejected ltac:(discriminate) ltac:(discriminate)
               ltac:(vm_compute; discriminate)
               (other_exception "std::domain_error") eq_refl).
    reflexivity.
Defined.

(** LOOKUP of a name longer than NAME_MAX in directory 42, whose attributes
    are available, and in the missing directory 99. *)
Lemma lookup_name_too_long_witness :
  let run i :=
    Nfsd3ServerProcessor.lookup Scenario.dispatcher
      (lookupRequest i longName) 7 0%nat in
  serialized (effects (run 42)) =
    [Xdr_reply SUCCESS 7;
     Xdr_LOOKUP3res
       {| status := NFS3ERR_NAMETOOLONG;
          body := inr {| lookupfail_dir_attributes :=
                           Some (statToFattr3 Scenario.dirStat) |} |}] /\
  serialized (effects (run 99)) =
    [Xdr_reply SUCCESS 7;
     Xdr_LOOKUP3res
       {| status := NFS3ERR_NAMETOOLONG;
          body := inr {| lookupfail_dir_attributes := None |} |}] /\
  filter isLookupCall (dispatched (effects (run 99))) = [].
Proof.
  intros run. subst run. cbv beta.
  pose proof (lookup_name_too_long Scenario.dispatcher
                (lookupRequest 42 longName) 7 0%nat 1%nat
                (lookupArgs 42 longName) (Value Scenario.dirStat)) as Hknown.
  pose proof (lookup_name_too_long Scenario.dispatcher
                (lookupRequest 99 longName) 7 0%nat 1%nat
                (lookupArgs 99 longName)
                (Exception (Scenario.errnoError ENOENT))) as Hmissing.
  cbv zeta in Hknown, Hmissing.
  specialize (Hknown eq_refl eq_refl eq_refl).
  specialize (Hmissing eq_refl eq_refl eq_refl).
  split; [apply Hknown | split; apply Hmissing].
Defined.

(** WRITE of three bytes with count 2: the dispatcher receives the first two
    bytes, and the reply is the one of scenario 3 of section 8. *)
Lemma write_success_witness :
  let run := Nfsd3ServerProcessor.write Scenario.dispatcher writeRequest 7 0%nat in
  dispatched (effects run) =
    [CallWrite 43 ["a"%byte; "b"%byte] 0 (getNullContextWithCauseDetail "write")
       (Value {| written := 2; preStat := None;
                 postStat := Some Scenario.fileStat |})] /\
  (exists wcc,
     serialized (effects run) =
       [Xdr_reply SUCCESS 7;
        Xdr_WRITE3res
          {| status := NFS3_OK;
             body := inl {| file_wcc := wcc;
                            write_count := 2;
                            committed := FILE_SYNC;
                            verf := 0 |} |}] /\
     before wcc = None /\
     after wcc = Some (statToFattr3 Scenario.fileStat)) /\
  outcome run = Value ().
Proof.
  intros run. subst run.
  pose proof (write_success Scenario.dispatcher writeRequest 7 0%nat
                writeArgs) as Hwrite.
  cbv zeta in Hwrite. destruct (Hwrite eq_refl) as [Hdone Hfound].
  destruct (Hdone {| written := 2; preStat := None;
                     postStat := Some Scenario.fileStat |} 1%nat
              ltac:(simpl; lia) eq_refl)
    as (wcc & Hrun & Hbefore & Hafter & _).
  rewrite Hrun. cbn [effects dispatched serialized].
  split; [reflexivity | split].
  - exists wcc. split; [reflexivity | split; [exact Hbefore | exact Hafter]].
  - rewrite <- Hrun.
    apply (Hfound 43 ["a"%byte; "b"%byte] 0
             (getNullContextWithCauseDetail "write")
             {| written := 2; preStat := None;
                postStat := Some Scenario.fileStat |}).
    rewrite Hrun. simpl. left. reflexivity.
Defined.


(** FSSTAT on the root with the statfs of scenario 6 of section 8. *)
Lemma fsstat_success_counters_witness :
  exists ok,
    serialized (effects (Nfsd3ServerProcessor.fsstat Scenario.dispatcher
                           (fsstatRequest 1) 7 0%nat)) =
      [Xdr_reply SUCCESS 7;
       Xdr_FSSTAT3res {| status := NFS3_OK; body := inl ok |}] /\
    tbytes ok = 4096000 /\ fbytes ok = 2048000 /\ abytes ok = 160000 /\
    tfiles ok = 256 /\ ffiles ok = 100 /\ afiles ok = 100 /\ invarsec ok = 0.
Proof.
  pose proof (fsstat_success_counters Scenario.dispatcher (fsstatRequest 1) 7
                0%nat 1%nat 2%nat (fsstatArgs 1) Scenario.fsStat
                (Value Scenario.rootStat)) as Hfsstat.
  cbv zeta in Hfsstat.
  destruct (Hfsstat eq_refl eq_refl eq_refl)
    as (ok & Hreply & _ & _ & _ & Htf & Hff & Haf & Hinv & Ht & Hf & _ & Ha).
  exists ok. split; [exact Hreply |].
  split; [apply Ht; simpl; lia |].
  split; [apply Hf; simpl; lia |].
  split; [apply Ha; reflexivity |].
  repeat split; assumption.
Defined.

(** FSSTAT on inode 99, which statfs serves but getattr does not know. *)
Lemma fsstat_getattr_failure_witness :
  serialized (effects (Nfsd3ServerProcessor.fsstat Scenario.dispatcher
                         (fsstatRequest 99) 7 0%nat)) =
    [Xdr_reply SUCCESS 7;
     Xdr_FSSTAT3res
       {| status := NFS3_OK;
          body := inl {| fsstat_obj_attributes := None;
                         tbytes := 4096000; fbytes := 2048000;
                         abytes := 160000; tfiles := 256; ffiles := 100;
                         afiles := 100; invarsec := 0 |} |}].
Proof.
  pose proof (fsstat_getattr_failure Scenario.dispatcher (fsstatRequest 99) 7
                0%nat 1%nat 2%nat (fsstatArgs 99) Scenario.fsStat
                (Scenario.errnoError ENOENT)) as Hfsstat.
  cbv zeta in Hfsstat.
  rewrite (Hfsstat eq_refl eq_refl eq_refl).
  reflexivity.
Defined.


(** C4 as stated fails: the empty name is neither "." nor "..", does not
    exceed NAME_MAX, and the dispatcher's lookup of it in directory 42
    would answer ENOENT; yet, the PathComponent constructor rejecting it,
    the LOOKUP does not invoke the dispatcher's lookup and its reply is
    not the one built from that answer: the status is that of the
    constructor's exception. *)
Lemma lookup_rejected_name_counterexample :
  let run :=
    Nfsd3ServerProcessor.lookup Scenario.dispatcher (lookupRequest 42 "") 7
      0%nat in
  let context := getNullContextWithCauseDetail "lookup" in
  let reply st :=
    [Xdr_reply SUCCESS 7;
     Xdr_LOOKUP3res
       {| status := st;
          body := inr {| lookupfail_dir_attributes :=
                           Some (statToFattr3 Scenario.dirStat) |} |}] in
  name (what (lookupArgs 42 "")) <> "." /\
  name (what (lookupArgs 42 "")) <> ".." /\
  Z.of_nat (String.length (name (what (lookupArgs 42 "")))) <= NAME_MAX /\
  fst (disp_lookup Scenario.dispatcher 42 {| stringPiece := "" |} context
         1%nat) = Exception (Scenario.errnoError ENOENT) /\
  exceptionToNfsError (Scenario.errnoError ENOENT) = NFS3ERR_NOENT /\
  filter isLookupCall (dispatched (effects run)) = [] /\
  serialized (effects run) = reply NFS3ERR_SERVERFAULT /\
  serialized (effects run) <> reply NFS3ERR_NOENT.
Proof.
  cbv zeta. repeat split; discriminate.
Qed.


(** * The further facts on the concrete server *)

(** A regular file with mode 0644, and a mode without format bits. *)
Lemma modeToFtype3_format_witness :
  modeToFtype3 (Z.lor S_IFREG 420) = NF3REG /\
  modeToFtype3 (Z.lor S_IFDIR 420) = NF3DIR /\
  modeToFtype3 420 = NF3FIFO.
Proof.
  pose proof (modeToFtype3_format 420 420) as (_ & Hformats & Hfifo).
  destruct (Hformats eq_refl) as (Hreg & Hdir & _).
  split; [exact Hreg | split; [exact Hdir |]].
  apply Hfifo. repeat split; discriminate.
Defined.

(** Modes 0755 and 0700 agree on the owner's execute bit. *)
Lemma modeToNfsMode_owner_exec_only_witness :
  modeToNfsMode 493 = modeToNfsMode 448 /\ modeToNfsMode 493 = 480.
Proof.
  pose proof (modeToNfsMode_owner_exec_only
                493 448) as [Hvalue Hagree].
  split; [apply Hagree; reflexivity | rewrite Hvalue; reflexivity].
Defined.

(** One second before the epoch, five nanoseconds. *)
Lemma timespecToNfsTime_wraps_witness :
  timespecToNfsTime {| tv_sec := -1; tv_nsec := 5 |} =
    {| seconds := 4294967295; nseconds := 5 |}.
Proof.
  pose proof (timespecToNfsTime_wraps {| tv_sec := -1; tv_nsec := 5 |})
    as (_ & _ & _ & _ & _ & Hnsec & Hsec).
  specialize (Hsec eq_refl).
  specialize (Hnsec ltac:(simpl; lia)).
  destruct (timespecToNfsTime {| tv_sec := -1; tv_nsec := 5 |}) as [s ns].
  simpl in Hsec, Hnsec. now subst.
Defined.

(** A file of eight blocks uses 4096 bytes. *)
Lemma statToFattr3_fields_witness :
  used (statToFattr3
          {| st_mode := 33188; st_nlink := 1; st_uid := 0; st_gid := 0;
             st_size := 3000; st_blocks := 8; st_dev := 0; st_ino := 43;
             st_atim := Scenario.epoch; st_mtim := Scenario.epoch;
             st_ctim := Scenario.epoch |}) = 4096.
Proof.
  pose proof (statToFattr3_fields
                {| st_mode := 33188; st_nlink := 1; st_uid := 0; st_gid := 0;
                   st_size := 3000; st_blocks := 8; st_dev := 0; st_ino := 43;
                   st_atim := Scenario.epoch; st_mtim := Scenario.epoch;
                   st_ctim := Scenario.epoch |}) as Hfields.
  cbv zeta in Hfields. destruct Hfields as (_ & _ & Hexact & _).
  rewrite Hexact; [reflexivity | simpl; lia].
Defined.

(** The directory 42 sampled before and after an operation that changed
    only its link count. *)
Lemma statToPreOpAttr_agrees_witness :
  statToPreOpAttr Scenario.dirStat =
    Some {| wcc_size := 0;
            wcc_mtime := {| seconds := 0; nseconds := 0 |};
            wcc_ctime := {| seconds := 0; nseconds := 0 |} |}.
Proof.
  pose proof (statToPreOpAttr_agrees
                Scenario.dirStat) as [_ Hagree].
  rewrite (Hagree
    {| st_mode := st_mode Scenario.dirStat; st_nlink := 3; st_uid := 0;
       st_gid := 0; st_size := 0; st_blocks := 0; st_dev := 0; st_ino := 42;
       st_atim := Scenario.epoch; st_mtim := Scenario.epoch;
       st_ctim := Scenario.epoch |} eq_refl eq_refl eq_refl).
  reflexivity.
Defined.

(** An EEXIST error and a read-only filesystem error. *)
Lemma isEexist_iff_status_witness :
  isEexist (Scenario.errnoError EEXIST) = true /\
  isEexist (Scenario.errnoError EROFS) = false.
Proof.
  split.
  - apply (isEexist_iff_status). reflexivity.
  - destruct (isEexist (Scenario.errnoError EROFS)) eqn:Hrofs; [| reflexivity].
    apply (isEexist_iff_status) in Hrofs.
    discriminate Hrofs.
Defined.

(** READ, whatever the cursor holds. *)
Lemma unavailable_procedures_witness :
  Nfsd3ServerProcessor.dispatchRpc Scenario.dispatcher Scenario.caseSensitive
    writeRequest 7 100003 3 6 0%nat =
  mk_Run (Value ()) 0%nat
    [Logged (FB_LOGF_DBG7 "READ"); Serialized (Xdr_reply PROC_UNAVAIL 7)].
Proof.
  apply (unavailable_procedures Scenario.dispatcher Scenario.caseSensitive
           proc_read writeRequest 7 0%nat).
  reflexivity.
Defined.

(** GETATTR of the missing inode 99 (scenario 1 of section 8): the accept
    status is SUCCESS and one result follows. *)
Lemma reply_shape_witness :
  exists item,
    serialized (effects
      (Nfsd3ServerProcessor.dispatchRpc Scenario.dispatcher
         Scenario.caseSensitive (getattrRequest 99) 7 100003 3 1 0%nat)) =
      [Xdr_reply SUCCESS 7; item] /\
    itemStatus item <> None.
Proof.
  pose proof (reply_shape Scenario.dispatcher Scenario.caseSensitive
                proc_getattr (getattrRequest 99) 7 0%nat) as Hshape.
  cbv zeta in Hshape.
  destruct Hshape as (rest & Hreply & Hlen & Hitems & _ & Hresult).
  specialize (Hresult eq_refl).
  destruct rest as [| item [| item' rest]].
  - exfalso. destruct (proj1 Hresult eq_refl) as [Hp | Hp]; discriminate Hp.
  - exists item. split; [exact Hreply | apply Hitems; now left].
  - simpl in Hlen. lia.
Defined.

(** The scenario's WRITE performs one mutating operation, a write. *)
Lemma mutation_discipline_witness :
  exists c q,
    In c (dispatched (effects
      (Nfsd3ServerProcessor.dispatchRpc Scenario.dispatcher
         Scenario.caseSensitive writeRequest 7 100003 3 7 0%nat))) /\
    mutatingProcedure c = Some q /\ q = proc_write.
Proof.
  pose proof (mutation_discipline Scenario.dispatcher Scenario.caseSensitive
                proc_write writeRequest 7 0%nat) as Hdiscipline.
  cbv zeta in Hdiscipline. destruct Hdiscipline as [Hown _].
  exists (CallWrite 43 ["a"%byte; "b"%byte] 0
            (getNullContextWithCauseDetail "write")
            (Value {| written := 2; preStat := None;
                      postStat := Some Scenario.fileStat |})).
  exists proc_write.
  assert (Hin : In (CallWrite 43 ["a"%byte; "b"%byte] 0
                      (getNullContextWithCauseDetail "write")
                      (Value {| written := 2; preStat := None;
                                postStat := Some Scenario.fileStat |}))
                   (dispatched (effects
                      (Nfsd3ServerProcessor.dispatchRpc Scenario.dispatcher
                         Scenario.caseSensitive writeRequest 7 100003 3 7
                         0%nat)))) by (simpl; left; reflexivity).
  split; [exact Hin | split; [reflexivity |]].
  exact (Hown _ proc_write Hin eq_refl).
Defined.

(** PATHCONF on a cursor that holds its arguments. *)
Lemma static_procedures_witness :
  let run :=
    Nfsd3ServerProcessor.dispatchRpc failingDispatcher Scenario.caseSensitive
      (Scenario.Holds_PATHCONF3args {| pathconf_object := {| ino := 1 |} |})
      7 100003 3 20 5%nat in
  dispatched (effects run) = [] /\ dstate run = 5%nat.
Proof.
  apply (static_procedures failingDispatcher Scenario.caseSensitive
           proc_pathconf
           (Scenario.Holds_PATHCONF3args {| pathconf_object := {| ino := 1 |} |})
           7 5%nat).
  reflexivity.
Defined.

(** GETATTR on the missing inode 99 (scenario 1 of section 8) and on the
    directory 42. *)
Lemma getattr_reply_witness :
  serialized (effects (Nfsd3ServerProcessor.getattr Scenario.dispatcher
                         (getattrRequest 99) 7 0%nat)) =
    [Xdr_reply SUCCESS 7;
     Xdr_GETATTR3res {| status := NFS3ERR_NOENT; body := inr () |}] /\
  serialized (effects (Nfsd3ServerProcessor.getattr Scenario.dispatcher
                         (getattrRequest 42) 7 0%nat)) =
    [Xdr_reply SUCCESS 7;
     Xdr_GETATTR3res
       {| status := NFS3_OK;
          body := inl {| obj_attributes := statToFattr3 Scenario.dirStat |} |}].
Proof.
  pose proof (getattr_reply Scenario.dispatcher (getattrRequest 99) 7 0%nat
                1%nat (getattrArgs 99)
                (Exception (Scenario.errnoError ENOENT))) as Hmissing.
  pose proof (getattr_reply Scenario.dispatcher (getattrRequest 42) 7 0%nat
                1%nat (getattrArgs 42) (Value Scenario.dirStat)) as Hdir.
  cbv zeta in Hmissing, Hdir.
  destruct (Hmissing eq_refl eq_refl) as (res & Hrun & _ & _ & Hfail).
  destruct (Hdir eq_refl eq_refl) as (res' & Hrun' & _ & Hok & _).
  rewrite Hrun, Hrun', (Hfail _ eq_refl), (Hok _ eq_refl).
  split; reflexivity.
Defined.

(** ACCESS asking for every right on the regular file 43, whose NFS mode
    grants the owner no execute right. *)
Lemma access_echoes_mask_witness :
  serialized (effects (Nfsd3ServerProcessor.access Scenario.dispatcher
                         (accessRequest 43 63) 7 0%nat)) =
    [Xdr_reply SUCCESS 7;
     Xdr_ACCESS3res
       {| status := NFS3_OK;
          body := inl {| access_obj_attributes :=
                           Some (statToFattr3 Scenario.fileStat);
                         effective_access := 63 |} |}].
Proof.
  pose proof (access_echoes_mask Scenario.dispatcher (accessRequest 43 63) 7
                0%nat 1%nat (accessArgs 43 63) (Value Scenario.fileStat))
    as Haccess.
  cbv zeta in Haccess.
  exact (proj1 (Haccess eq_refl eq_refl)).
Defined.

(** READLINK of the unknown inode 99 on a filesystem that serves readlink:
    the target is returned although the attributes are not available. *)
Lemma readlink_reply_witness :
  serialized (effects (Nfsd3ServerProcessor.readlink failingDispatcher
                         (readlinkRequest 99) 7 0%nat)) =
    [Xdr_reply SUCCESS 7;
     Xdr_READLINK3res
       {| status := NFS3_OK;
          body := inl {| symlink_attributes := None;
                         readlink_data := "hello.txt" |} |}].
Proof.
  pose proof (readlink_reply failingDispatcher (readlinkRequest 99) 7 0%nat
                1%nat 2%nat (readlinkArgs 99)
                (Exception (Scenario.errnoError ENOENT)) (Value "hello.txt"))
    as Hlink.
  cbv zeta in Hlink.
  destruct (Hlink eq_refl eq_refl eq_refl) as (res & Hrun & _ & Hok & _).
  rewrite Hrun, (Hok _ eq_refl). reflexivity.
Defined.

(** LINK to the regular file 43. *)
Lemma link_always_notsupp_witness :
  serialized (effects (Nfsd3ServerProcessor.link Scenario.dispatcher
                         (linkRequest 43) 7 0%nat)) =
    [Xdr_reply SUCCESS 7;
     Xdr_LINK3res
       {| status := NFS3ERR_NOTSUPP;
          body := inr {| linkfail_file_attributes :=
                           Some (statToFattr3 Scenario.fileStat);
                         linkfail_linkdir_wcc :=
                           {| before := None; after := None |} |} |}].
Proof.
  pose proof (link_always_notsupp Scenario.dispatcher (linkRequest 43) 7
                0%nat (linkArgs 43)) as Hlink.
  cbv zeta in Hlink.
  destruct (Hlink eq_refl) as (_ & _ & Hreply & _).
  exact Hreply.
Defined.

(** WRITE of count 2 on a read-only filesystem. *)
Lemma write_buffer_bound_witness :
  serialized (effects (Nfsd3ServerProcessor.write failingDispatcher
                         writeRequest 7 0%nat)) =
    [Xdr_reply SUCCESS 7;
     Xdr_WRITE3res
       {| status := NFS3ERR_ROFS;
          body := inr {| writefail_file_wcc :=
                           {| before := None; after := None |} |} |}].
Proof.
  pose proof (write_buffer_bound failingDispatcher writeRequest 7 0%nat
                writeArgs 43 ["a"%byte; "b"%byte] 0
                (getNullContextWithCauseDetail "write")
                (Exception (Scenario.errnoError EROFS))) as Hwrite.
  cbv zeta in Hwrite.
  destruct (Hwrite eq_refl ltac:(simpl; lia) (or_introl eq_refl))
    as (_ & _ & Hfail).
  exact (proj2 (Hfail _ eq_refl)).
Defined.

(** WRITE announcing five bytes and carrying three. *)
Lemma write_underflow_witness :
  Nfsd3ServerProcessor.write Scenario.dispatcher shortWriteRequest 7 0%nat =
  mk_Run (Exception (other_exception "std::underflow_error")) 0%nat
    [Serialized (Xdr_reply SUCCESS 7)].
Proof.
  pose proof (write_underflow Scenario.dispatcher shortWriteRequest 7 0%nat
                shortWriteArgs) as Hshort.
  apply (Hshort eq_refl). simpl. lia.
Defined.

(** CREATE of "new.txt" in directory 42 without a mode. *)
Lemma create_call_and_success_witness :
  serialized (effects (Nfsd3ServerProcessor.create Scenario.dispatcher
                         (createRequest "new.txt" GUARDED (inl noAttributes))
                         7 0%nat)) =
    [Xdr_reply SUCCESS 7;
     Xdr_CREATE3res
       {| status := NFS3_OK;
          body := inl
            {| create_obj := Some {| ino := 44 |};
               create_obj_attributes :=
                 Some (statToFattr3 (Scenario.statOf 44 33188));
               create_dir_wcc :=
                 {| before := statToPreOpAttr Scenario.dirStat;
                    after := Some (statToFattr3 Scenario.dirStat) |} |} |}].
Proof.
  pose proof (create_call_and_success Scenario.dispatcher
                (createRequest "new.txt" GUARDED (inl noAttributes)) 7 0%nat
                (createArgs "new.txt" GUARDED (inl noAttributes))
                42 {| stringPiece := "new.txt" |} 33188
                (getNullContextWithCauseDetail "create")
                (Value {| create_ino := 44;
                          create_stat := Scenario.statOf 44 33188;
                          create_preDirStat := Some Scenario.dirStat;
                          create_postDirStat := Some Scenario.dirStat |}))
    as Hcreate.
  cbv zeta in Hcreate.
  destruct (Hcreate eq_refl (or_introl eq_refl)) as (_ & _ & _ & _ & Hok).
  exact (proj2 (Hok _ eq_refl)).
Defined.

(** MKDIR of an existing directory. *)
Lemma mkdir_reply_witness :
  serialized (effects (Nfsd3ServerProcessor.mkdir failingDispatcher
                         (mkdirRequest "photos") 7 0%nat)) =
    [Xdr_reply SUCCESS 7;
     Xdr_MKDIR3res
       {| status := NFS3ERR_EXIST;
          body := inr {| mkdirfail_dir_wcc :=
                           {| before := None; after := None |} |} |}] /\
  dispatched (effects (Nfsd3ServerProcessor.mkdir failingDispatcher
                         (mkdirRequest "photos") 7 0%nat)) =
    [CallMkdir 42 {| stringPiece := "photos" |} 16873
       (getNullContextWithCauseDetail "mkdir")
       (Exception (Scenario.errnoError EEXIST))].
Proof.
  pose proof (mkdir_reply failingDispatcher (mkdirRequest "photos") 7 0%nat
                1%nat (mkdirArgs "photos") {| stringPiece := "photos" |}
                (Exception (Scenario.errnoError EEXIST))) as Hmkdir.
  cbv zeta in Hmkdir.
  destruct (Hmkdir eq_refl ltac:(discriminate) ltac:(discriminate)
              eq_refl eq_refl) as (res & Hrun & _ & Hfail & _).
  destruct (Hfail _ eq_refl) as [Hres _].
  rewrite Hrun, Hres. split; reflexivity.
Defined.

(** FSSTAT on the root of a filesystem whose statfs fails with EIO. *)
Lemma fsstat_statfs_failure_witness :
  serialized (effects (Nfsd3ServerProcessor.fsstat failingDispatcher
                         (fsstatRequest 1) 7 0%nat)) =
    [Xdr_reply SUCCESS 7;
     Xdr_FSSTAT3res
       {| status := NFS3ERR_IO;
          body := inr {| fsstatfail_obj_attributes :=
                           Some (statToFattr3 Scenario.rootStat) |} |}].
Proof.
  pose proof (fsstat_statfs_failure failingDispatcher (fsstatRequest 1) 7
                0%nat 1%nat 2%nat (fsstatArgs 1) (Scenario.errnoError EIO)
                (Value Scenario.rootStat)) as Hfsstat.
  cbv zeta in Hfsstat.
  rewrite (proj2 (Hfsstat eq_refl eq_refl eq_refl)). reflexivity.
Defined.

(** LOOKUP of "." in the missing directory 99, of ".." in the root, which
    has no parent, and of ".." in directory 42 when its parent is gone. *)
Lemma lookup_resolution_failure_witness :
  let status_of run :=
    match serialized (effects run) with
    | [_; item] => itemStatus item
    | _ => None
    end in
  status_of (Nfsd3ServerProcessor.lookup Scenario.dispatcher
               (lookupRequest 99 ".") 7 0%nat) = Some NFS3ERR_NOENT /\
  dispatched (effects (Nfsd3ServerProcessor.lookup Scenario.dispatcher
                         (lookupRequest 1 "..") 7 0%nat)) =
    [CallGetattr 1 (getNullContextWithCauseDetail "lookup")
       (Value Scenario.rootStat);
     CallGetParent 1 (getNullContextWithCauseDetail "lookup")
       (Exception (Scenario.errnoError ENOENT))] /\
  status_of (Nfsd3ServerProcessor.lookup failingDispatcher
               (lookupRequest 42 "..") 7 0%nat) = Some NFS3ERR_NOENT.
Proof.
  intros status_of. subst status_of. cbv beta.
  pose proof (lookup_resolution_failure Scenario.dispatcher
                (lookupRequest 99 ".") 7 0%nat 1%nat (lookupArgs 99 ".")
                (Exception (Scenario.errnoError ENOENT))
                (Scenario.errnoError ENOENT)) as Hdot.
  pose proof (lookup_resolution_failure Scenario.dispatcher
                (lookupRequest 1 "..") 7 0%nat 1%nat (lookupArgs 1 "..")
                (Value Scenario.rootStat) (Scenario.errnoError ENOENT))
    as Hroot.
  pose proof (lookup_resolution_failure failingDispatcher
                (lookupRequest 42 "..") 7 0%nat 1%nat (lookupArgs 42 "..")
                (Value Scenario.dirStat) (Scenario.errnoError ENOENT))
    as Hgone.
  cbv zeta in Hdot, Hroot, Hgone.
  destruct (Hdot eq_refl eq_refl) as (_ & Hself & _).
  destruct (Hroot eq_refl eq_refl) as (_ & _ & Hparent & _).
  destruct (Hgone eq_refl eq_refl) as (_ & _ & _ & Hattr).
  rewrite (Hself eq_refl 2%nat eq_refl), (Hparent eq_refl 2%nat eq_refl),
    (Hattr eq_refl 7 2%nat 3%nat eq_refl eq_refl).
  repeat split.
Defined.

(** The empty name, which the constructor of the scenarios rejects, in a
    LOOKUP, a CREATE and a MKDIR in directory 42. *)
Lemma rejected_path_component_witness :
  outcome (Nfsd3ServerProcessor.lookup Scenario.dispatcher
             (lookupRequest 42 "") 7 0%nat) = Value () /\
  serialized (effects (Nfsd3ServerProcessor.lookup Scenario.dispatcher
                         (lookupRequest 42 "") 7 0%nat)) =
    [Xdr_reply SUCCESS 7;
     Xdr_LOOKUP3res
       {| status := NFS3ERR_SERVERFAULT;
          body := inr {| lookupfail_dir_attributes :=
                           Some (statToFattr3 Scenario.dirStat) |} |}] /\
  Nfsd3ServerProcessor.create Scenario.dispatcher
    (createRequest "" UNCHECKED (inl noAttributes)) 7 0%nat =
    mk_Run (Exception (other_exception "std::domain_error")) 0%nat
      [Serialized (Xdr_reply SUCCESS 7)] /\
  Nfsd3ServerProcessor.mkdir Scenario.dispatcher (mkdirRequest "") 7 0%nat =
    mk_Run (Exception (other_exception "std::domain_error")) 0%nat
      [Serialized (Xdr_reply SUCCESS 7)].
Proof.
  pose proof (rejected_path_component Scenario.dispatcher) as Hrejected.
  pose proof (Hrejected (lookupRequest 42 "") 7 0%nat ""
                (other_exception "std::domain_error") eq_refl
                ltac:(discriminate) ltac:(discriminate)) as (Hlookup & _ & _).
  pose proof (Hrejected (createRequest "" UNCHECKED (inl noAttributes)) 7 0%nat
                "" (other_exception "std::domain_error") eq_refl
                ltac:(discriminate) ltac:(discriminate)) as (_ & Hcreate & _).
  pose proof (Hrejected (mkdirRequest "") 7 0%nat ""
                (other_exception "std::domain_error") eq_refl
                ltac:(discriminate) ltac:(discriminate)) as (_ & _ & Hmkdir).
  rewrite (Hlookup (lookupArgs 42 "") (Value Scenario.dirStat) 1%nat
             eq_refl eq_refl ltac:(vm_compute; discriminate) eq_refl).
  rewrite (Hcreate (createArgs "" UNCHECKED (inl noAttributes)) noAttributes
             eq_refl eq_refl ltac:(discriminate) eq_refl).
  rewrite (Hmkdir (mkdirArgs "") eq_refl eq_refl).
  repeat split.
Defined.


(** FSINFO and PATHCONF for the unknown file handle 99 on the case
    sensitive server of the scenarios. *)
Lemma static_replies_witness :
  (exists ok,
     serialized (effects (Nfsd3ServerProcessor.fsinfo (D := nat)
       (Scenario.Holds_FSINFO3args {| fsinfo_fsroot := {| ino := 99 |} |})
       7 0%nat)) =
       [Xdr_reply SUCCESS 7;
        Xdr_FSINFO3res {| status := NFS3_OK; body := inl ok |}] /\
     rtmax ok = 1048576 /\ properties ok = 26) /\
  (exists ok,
     serialized (effects (Nfsd3ServerProcessor.pathconf (D := nat)
       Scenario.caseSensitive
       (Scenario.Holds_PATHCONF3args {| pathconf_object := {| ino := 99 |} |})
       7 0%nat)) =
       [Xdr_reply SUCCESS 7;
        Xdr_PATHCONF3res {| status := NFS3_OK; body := inl ok |}] /\
     case_insensitive ok = false).
Proof.
  pose proof (static_replies (D := nat) Scenario.caseSensitive
                (Scenario.Holds_FSINFO3args
                   {| fsinfo_fsroot := {| ino := 99 |} |}) 7 0%nat)
    as [Hfsinfo _].
  pose proof (static_replies (D := nat) Scenario.caseSensitive
                (Scenario.Holds_PATHCONF3args
                   {| pathconf_object := {| ino := 99 |} |}) 7 0%nat)
    as [_ Hpathconf].
  split.
  - eexists. rewrite (Hfsinfo _ eq_refl). repeat split.
  - eexists. rewrite (Hpathconf _ eq_refl). repeat split.
Defined.
